(** * The PayPal order gateway of Locket Photo Print

    A shallow embedding of the request handler
    [POST /api/paypal/create-order] and of its two helpers
    [getPayPalAccessToken] and [createPayPalOrder].

    The sources hold four revisions of that route file:
    - [RouteTs]    : src/app/api/paypal/create-order/route.ts, lines 1-81;
    - [HeaderTsxA] : the text carried in src/components/header.tsx, lines 65-159;
    - [Part000]    : the text carried in unnamed/part_000, lines 1-103;
    - [HeaderTsxB] : the text carried in src/components/header.tsx, lines 160-293.
    Each one is embedded as a module of its own, with the names of the
    source. *)

From Stdlib Require Import String Ascii List Bool PrimFloat Arith Lia.
Import ListNotations.
Set Warnings "-register-all".
Local Open Scope list_scope.
Local Open Scope string_scope.

(** ** JavaScript values *)

Module JS.

(** What [JSON.parse] can produce.  Numbers are IEEE binary64, as in
    JavaScript.  An object is the list of its own properties, each key
    once. *)
Inductive JSON : Type :=
| JNull
| JBool (b : bool)
| JNum (n : float)
| JStr (s : string)
| JArr (items : list JSON)
| JObj (fields : list (string * JSON)).

(** A JavaScript value as this code meets it: [undefined] or JSON data. *)
Definition Value : Type := option JSON.
Definition undefined : Value := None.

(** ToBoolean: [undefined], [null], [false], [+0], [-0], [NaN] and the
    empty string are falsy, everything else is truthy. *)
Definition truthy (v : Value) : bool :=
  match v with
  | None => false
  | Some JNull => false
  | Some (JBool b) => b
  | Some (JNum n) => negb (PrimFloat.eqb n 0%float || negb (PrimFloat.eqb n n))
  | Some (JStr s) => negb (String.eqb s "")
  | Some (JArr _) => true
  | Some (JObj _) => true
  end.

(** [v === s] for a string literal [s] *)
Definition strict_eq_string (v : Value) (s : string) : bool :=
  match v with
  | Some (JStr t) => String.eqb t s
  | _ => false
  end.

(** [a || b] *)
Definition or_else (a b : Value) : Value := if truthy a then a else b.

Fixpoint assoc (name : string) (fields : list (string * JSON)) : Value :=
  match fields with
  | [] => None
  | (k, v) :: rest => if String.eqb k name then Some v else assoc name rest
  end.

(** Reading a named property of a value that is not [null].  The names
    read by this code ([amount], [description], [requiresShipping],
    [access_token], [error], [error_description], [details], [message],
    [id]) are neither [length] nor an index, so only an object has them. *)
Definition get_own (j : JSON) (name : string) : Value :=
  match j with
  | JObj fields => assoc name fields
  | _ => None
  end.

(** [v[0]] on a value that is not nullish. *)
Definition get_index0 (j : JSON) : Value :=
  match j with
  | JArr items => match items with [] => None | x :: _ => Some x end
  | JStr s => match s with
              | EmptyString => None
              | String c _ => Some (JStr (String c EmptyString))
              end
  | JObj fields => assoc "0" fields
  | _ => None
  end.

(** An object literal; a property whose value is [undefined] is not
    serialised by [JSON.stringify]. *)
Fixpoint object_literal (props : list (string * Value)) : JSON :=
  match props with
  | [] => JObj []
  | (k, None) :: rest => object_literal rest
  | (k, Some v) :: rest =>
      match object_literal rest with
      | JObj fields => JObj ((k, v) :: fields)
      | other => other
      end
  end.

(** What a [throw] or a rejected promise carries: an [Error] (with its
    [message]) or some other value. *)
Inductive Thrown : Type :=
| ErrorObject (message : string)
| NotAnError.

Definition new_Error (message : string) : Thrown := ErrorObject message.

(** The places where the engine itself raises a [TypeError]. *)
Inductive Fault : Type :=
| DestructureNull (property : string)
| ReadOfNull (property : string).

Inductive ParseResult : Type :=
| SyntaxError (message : string)
| Parses (v : JSON).

(** *** The outside world: outbound calls and the console *)

Inductive Body : Type :=
| Text (s : string)
| Stringified (v : JSON).   (* JSON.stringify(v) *)

Record Call : Type := {
  url : string;
  method : string;
  headers : list (string * string);
  body : Body
}.

Record Response : Type := {
  ok : bool;
  text : string
}.

Inductive FetchResult : Type :=
| Resolves (r : Response)
| Rejects (e : Thrown).

Inductive LogArg : Type :=
| LStr (s : string)
| LVal (v : Value)
| LErr (e : Thrown).

Inductive LogEntry : Type :=
| console_error_entry (args : list LogArg)
| console_log_entry (args : list LogArg).

Record World : Type := {
  calls : list Call;
  console : list LogEntry
}.

(** What the code takes from its platform: the engine's built-ins, the
    process environment and the network.  The network answers a call
    knowing the calls made before it. *)
Class Runtime : Type := {
  JSON_parse : string -> ParseResult;
  base64 : string -> string;
  Number_toString : float -> string;
  TypeError_message : Fault -> string;
  process_env : string -> option string;
  network : list Call -> Call -> FetchResult
}.

(** *** Computations: state over [World], with exceptions *)

Inductive Outcome (A : Type) : Type :=
| Returns (a : A)
| Throws (e : Thrown).
Arguments Returns {A} a.
Arguments Throws {A} e.

Definition M (A : Type) : Type := World -> Outcome A * World.

Definition ret {A} (a : A) : M A := fun w => (Returns a, w).

Definition throw {A} (e : Thrown) : M A := fun w => (Throws e, w).

Definition bind {A B} (c : M A) (k : A -> M B) : M B :=
  fun w =>
    match c w with
    | (Returns a, w') => k a w'
    | (Throws e, w') => (Throws e, w')
    end.

Definition try_catch {A} (c : M A) (handler : Thrown -> M A) : M A :=
  fun w =>
    match c w with
    | (Returns a, w') => (Returns a, w')
    | (Throws e, w') => handler e w'
    end.

Definition console_error (args : list LogArg) : M unit :=
  fun w => (Returns tt,
            {| calls := calls w;
               console := (console w ++ [console_error_entry args])%list |}).

Definition console_log (args : list LogArg) : M unit :=
  fun w => (Returns tt,
            {| calls := calls w;
               console := (console w ++ [console_log_entry args])%list |}).

Declare Scope js_scope.
Delimit Scope js_scope with js.
Notation "x <- c ;; k" := (bind c (fun x => k))
  (at level 100, c at next level, right associativity) : js_scope.
Notation "c ;; k" := (bind c (fun _ => k))
  (at level 100, right associativity) : js_scope.

(** An incoming request and the handler's answer ([NextResponse.json]). *)
Record Request : Type := { body_text : string }.

Record HttpResponse : Type := {
  status : nat;
  payload : JSON
}.

Definition NextResponse_json (data : JSON) (code : nat) : HttpResponse :=
  {| status := code; payload := data |}.

(** A variable of [process.env]: a string or [undefined]. *)
Definition env_truthy (v : option string) : bool :=
  match v with
  | None => false
  | Some s => negb (String.eqb s "")
  end.

Definition env_text (v : option string) : string :=
  match v with
  | None => "undefined"
  | Some s => s
  end.

(** [s.slice(-4)] *)
Definition slice_last4 (s : string) : string :=
  substring (String.length s - 4) 4 s.

(** [error instanceof Error ? error.message : fallback] *)
Definition message_or (fallback : string) (e : Thrown) : string :=
  match e with
  | ErrorObject m => m
  | NotAnError => fallback
  end.

Section WithRuntime.
Context `{Runtime}.

(** [fetch]: the call leaves the process, then resolves or rejects. *)
Definition fetch (c : Call) : M Response :=
  fun w =>
    let w' := {| calls := (calls w ++ [c])%list; console := console w |} in
    match network (calls w) c with
    | Resolves r => (Returns r, w')
    | Rejects e => (Throws e, w')
    end.

Definition response_text (r : Response) : M string := ret (text r).

Definition parse (s : string) : M JSON :=
  match JSON_parse s with
  | SyntaxError m => throw (ErrorObject m)
  | Parses v => ret v
  end.

Definition response_json (r : Response) : M JSON := parse (text r).

Definition request_json (r : Request) : M JSON := parse (body_text r).

(** [v.name]: a [TypeError] when [v] is [null] or [undefined]. *)
Definition member (v : Value) (name : string) : M Value :=
  match v with
  | None | Some JNull => throw (ErrorObject (TypeError_message (ReadOfNull name)))
  | Some j => ret (get_own j name)
  end.

(** [v?.[0]] and [v?.name] *)
Definition opt_index0 (v : Value) : Value :=
  match v with
  | None | Some JNull => None
  | Some j => get_index0 j
  end.

Definition opt_member (v : Value) (name : string) : Value :=
  match v with
  | None | Some JNull => None
  | Some j => get_own j name
  end.

(** [const { amount, description, requiresShipping } = v] *)
Definition destructure_request (v : JSON) : M (Value * Value * Value) :=
  match v with
  | JNull => throw (ErrorObject (TypeError_message (DestructureNull "amount")))
  | _ => ret (get_own v "amount", get_own v "description",
              get_own v "requiresShipping")
  end.

(** ToString, as a template literal applies it.  (An object that holds
    a key [toString] of its own is not told apart from the others.) *)
Fixpoint ToString (j : JSON) : string :=
  match j with
  | JNull => "null"
  | JBool true => "true"
  | JBool false => "false"
  | JNum n => Number_toString n
  | JStr s => s
  | JArr items =>
      String.concat ","
        (map (fun x => match x with JNull => "" | _ => ToString x end) items)
  | JObj _ => "[object Object]"
  end.

Definition template (v : Value) : string :=
  match v with
  | None => "undefined"
  | Some j => ToString j
  end.

End WithRuntime.

End JS.

Import JS.
Local Open Scope js_scope.

(** ** route.ts, lines 1-81 *)

Module RouteTs.
Section WithRuntime.
Context `{Runtime}.

Definition PAYPAL_CLIENT_ID : option string :=
  process_env "NEXT_PUBLIC_PAYPAL_CLIENT_ID".
Definition PAYPAL_CLIENT_SECRET : option string :=
  process_env "PAYPAL_CLIENT_SECRET".
Definition base : string := "https://api-m.sandbox.paypal.com".

(** The argument of the first [fetch]. *)
Definition token_request : Call :=
  let auth :=
    base64 (env_text PAYPAL_CLIENT_ID ++ ":" ++ env_text PAYPAL_CLIENT_SECRET) in
  {| url := base ++ "/v1/oauth2/token";
     method := "POST";
     headers := [("Authorization", "Basic " ++ auth)];
     body := Text "grant_type=client_credentials" |}.

Definition getPayPalAccessToken : M Value :=
  if negb (env_truthy PAYPAL_CLIENT_ID) || negb (env_truthy PAYPAL_CLIENT_SECRET)
  then throw (new_Error "MISSING_PAYPAL_API_CREDENTIALS")
  else
    response <- fetch token_request ;;
    if negb (ok response) then
      errorData <- response_text response ;;
      throw (new_Error ("Failed to get access token: " ++ errorData))
    else
      data <- response_json response ;;
      member (Some data) "access_token".

(** The [body] object and the argument of the second [fetch]. *)
Definition order_body (amount description : Value) (requiresShipping : bool)
  : JSON :=
  object_literal
    [("intent", Some (JStr "CAPTURE"));
     ("purchase_units",
      Some (JArr
        [object_literal
           [("amount",
             Some (object_literal
                     [("currency_code", Some (JStr "USD"));
                      ("value", amount)]));
            ("description", description)]]));
     ("application_context",
      Some (object_literal
        [("shipping_preference",
          Some (JStr (if requiresShipping then "GET_FROM_FILE"
                      else "NO_SHIPPING")))]))].

Definition order_request (amount description : Value)
  (requiresShipping : bool) (accessToken : Value) : Call :=
  {| url := base ++ "/v2/checkout/orders";
     method := "POST";
     headers := [("Content-Type", "application/json");
                 ("Authorization", "Bearer " ++ template accessToken)];
     body := Stringified (order_body amount description requiresShipping) |}.

Definition createPayPalOrder (amount description : Value)
  (requiresShipping : bool) : M JSON :=
  accessToken <- getPayPalAccessToken ;;
  response <- fetch (order_request amount description requiresShipping
                       accessToken) ;;
  if negb (ok response) then
    errorData <- response_text response ;;
    throw (new_Error ("Failed to create order: " ++ errorData))
  else
    response_json response.

Definition POST (request : Request) : M HttpResponse :=
  try_catch
    (parsed <- request_json request ;;
     fields <- destructure_request parsed ;;
     let '(amount, description, requiresShipping) := fields in
     if negb (truthy amount) || negb (truthy description) then
       ret (NextResponse_json
              (JObj [("error",
                      JStr "Missing amount or description in request body")])
              400)
     else
       order <- createPayPalOrder amount description
                  (truthy requiresShipping) ;;
       ret (NextResponse_json order 200))
    (fun error =>
       console_error [LStr "Failed to create PayPal order:"; LErr error] ;;
       let message := message_or "An unknown error occurred" error in
       ret (NextResponse_json (JObj [("error", JStr message)]) 500)).

End WithRuntime.
End RouteTs.

(** ** header.tsx, lines 65-159 *)

Module HeaderTsxA.
Section WithRuntime.
Context `{Runtime}.

Definition PAYPAL_CLIENT_ID : option string :=
  process_env "NEXT_PUBLIC_PAYPAL_CLIENT_ID".
Definition PAYPAL_CLIENT_SECRET : option string :=
  process_env "PAYPAL_CLIENT_SECRET".
Definition base : string := "https://api-m.sandbox.paypal.com".

Definition token_request : Call :=
  let auth :=
    base64 (env_text PAYPAL_CLIENT_ID ++ ":" ++ env_text PAYPAL_CLIENT_SECRET) in
  {| url := base ++ "/v1/oauth2/token";
     method := "POST";
     headers := [("Content-Type", "application/x-www-form-urlencoded");
                 ("Authorization", "Basic " ++ auth)];
     body := Text "grant_type=client_credentials" |}.

Definition getPayPalAccessToken : M Value :=
  if negb (env_truthy PAYPAL_CLIENT_ID) || negb (env_truthy PAYPAL_CLIENT_SECRET)
  then
    console_error [LStr "MISSING_PAYPAL_API_CREDENTIALS: Make sure PAYPAL_CLIENT_SECRET and NEXT_PUBLIC_PAYPAL_CLIENT_ID are set in your environment variables."] ;;
    throw (new_Error "PayPal API credentials are not configured on the server.")
  else
    response <- fetch token_request ;;
    if negb (ok response) then
      errorBody <- response_text response ;;
      try_catch
        (errorJson <- parse errorBody ;;
         code <- member (Some errorJson) "error" ;;
         if strict_eq_string code "invalid_client" then
           (console_error [LStr "PayPal authentication failed: 'invalid_client'. This is likely due to incorrect PAYPAL_CLIENT_ID or PAYPAL_CLIENT_SECRET environment variables in your deployment environment (e.g., Netlify)."] ;;
            throw (new_Error "PayPal client authentication failed. Please check server configuration."))
         else ret tt)
        (fun e => ret tt) ;;
      console_error [LStr "Failed to get PayPal access token:"; LStr errorBody] ;;
      throw (new_Error "Failed to get access token from PayPal.")
    else
      data <- response_json response ;;
      member (Some data) "access_token".

Definition order_body (amount description : Value) (requiresShipping : bool)
  : JSON :=
  object_literal
    [("intent", Some (JStr "CAPTURE"));
     ("purchase_units",
      Some (JArr
        [object_literal
           [("amount",
             Some (object_literal
                     [("currency_code", Some (JStr "USD"));
                      ("value", amount)]));
            ("description", description)]]));
     ("application_context",
      Some (object_literal
        [("shipping_preference",
          Some (JStr (if requiresShipping then "GET_FROM_FILE"
                      else "NO_SHIPPING")))]))].

Definition order_request (amount description : Value)
  (requiresShipping : bool) (accessToken : Value) : Call :=
  {| url := base ++ "/v2/checkout/orders";
     method := "POST";
     headers := [("Content-Type", "application/json");
                 ("Authorization", "Bearer " ++ template accessToken)];
     body := Stringified (order_body amount description requiresShipping) |}.

Definition createPayPalOrder (amount description : Value)
  (requiresShipping : bool) : M JSON :=
  accessToken <- getPayPalAccessToken ;;
  response <- fetch (order_request amount description requiresShipping
                       accessToken) ;;
  if negb (ok response) then
    errorData <- response_text response ;;
    console_error [LStr "Failed to create PayPal order:"; LStr errorData] ;;
    throw (new_Error "Failed to create order with PayPal.")
  else
    response_json response.

Definition POST (request : Request) : M HttpResponse :=
  try_catch
    (parsed <- request_json request ;;
     fields <- destructure_request parsed ;;
     let '(amount, description, requiresShipping) := fields in
     if negb (truthy amount) || negb (truthy description) then
       ret (NextResponse_json
              (JObj [("error",
                      JStr "Missing amount or description in request body")])
              400)
     else
       order <- createPayPalOrder amount description
                  (truthy requiresShipping) ;;
       ret (NextResponse_json order 200))
    (fun error =>
       let message := message_or "An unknown error occurred" error in
       ret (NextResponse_json (JObj [("error", JStr message)]) 500)).

End WithRuntime.
End HeaderTsxA.

(** ** unnamed/part_000, lines 1-103 *)

Module Part000.
Section WithRuntime.
Context `{Runtime}.

Definition PAYPAL_CLIENT_ID : option string :=
  process_env "NEXT_PUBLIC_PAYPAL_CLIENT_ID".
Definition PAYPAL_CLIENT_SECRET : option string :=
  process_env "PAYPAL_CLIENT_SECRET".
Definition base : string := "https://api-m.sandbox.paypal.com".

Definition token_request : Call :=
  let auth :=
    base64 (env_text PAYPAL_CLIENT_ID ++ ":" ++ env_text PAYPAL_CLIENT_SECRET) in
  {| url := base ++ "/v1/oauth2/token";
     method := "POST";
     headers := [("Content-Type", "application/x-www-form-urlencoded");
                 ("Authorization", "Basic " ++ auth)];
     body := Text "grant_type=client_credentials" |}.

Definition getPayPalAccessToken : M Value :=
  if negb (env_truthy PAYPAL_CLIENT_ID) || negb (env_truthy PAYPAL_CLIENT_SECRET)
  then
    console_error [LStr "MISSING_PAYPAL_API_CREDENTIALS: Make sure PAYPAL_CLIENT_SECRET and NEXT_PUBLIC_PAYPAL_CLIENT_ID are set in your environment variables."] ;;
    throw (new_Error "PayPal API credentials are not configured on the server.")
  else
    console_log [LStr ("Attempting PayPal auth with Client ID ending in ..."
                       ++ slice_last4 (env_text PAYPAL_CLIENT_ID))] ;;
    response <- fetch token_request ;;
    if negb (ok response) then
      errorBody <- response_text response ;;
      console_error [LStr "PayPal API Error Response:"; LStr errorBody] ;;
      try_catch
        (errorJson <- parse errorBody ;;
         code <- member (Some errorJson) "error" ;;
         if strict_eq_string code "invalid_client" then
           (console_error [LStr "PayPal authentication failed: 'invalid_client'. This is almost always due to an incorrect PAYPAL_CLIENT_ID or PAYPAL_CLIENT_SECRET in your environment variables."] ;;
            throw (new_Error "PayPal client authentication failed. Please check server configuration and credentials."))
         else ret tt)
        (fun e => ret tt) ;;
      throw (new_Error "Failed to get access token from PayPal. Check server logs for details.")
    else
      data <- response_json response ;;
      console_log [LStr "Successfully obtained PayPal access token."] ;;
      member (Some data) "access_token".

Definition order_body (amount description : Value) (requiresShipping : bool)
  : JSON :=
  object_literal
    [("intent", Some (JStr "CAPTURE"));
     ("purchase_units",
      Some (JArr
        [object_literal
           [("amount",
             Some (object_literal
                     [("currency_code", Some (JStr "USD"));
                      ("value", amount)]));
            ("description", description)]]));
     ("application_context",
      Some (object_literal
        [("shipping_preference",
          Some (JStr (if requiresShipping then "GET_FROM_FILE"
                      else "NO_SHIPPING")))]))].

Definition order_request (amount description : Value)
  (requiresShipping : bool) (accessToken : Value) : Call :=
  {| url := base ++ "/v2/checkout/orders";
     method := "POST";
     headers := [("Content-Type", "application/json");
                 ("Authorization", "Bearer " ++ template accessToken)];
     body := Stringified (order_body amount description requiresShipping) |}.

Definition createPayPalOrder (amount description : Value)
  (requiresShipping : bool) : M JSON :=
  accessToken <- getPayPalAccessToken ;;
  response <- fetch (order_request amount description requiresShipping
                       accessToken) ;;
  if negb (ok response) then
    errorData <- response_text response ;;
    console_error [LStr "Failed to create PayPal order:"; LStr errorData] ;;
    throw (new_Error "Failed to create order with PayPal.")
  else
    response_json response.

Definition POST (request : Request) : M HttpResponse :=
  try_catch
    (parsed <- request_json request ;;
     fields <- destructure_request parsed ;;
     let '(amount, description, requiresShipping) := fields in
     if negb (truthy amount) || negb (truthy description) then
       ret (NextResponse_json
              (JObj [("error",
                      JStr "Missing amount or description in request body")])
              400)
     else
       order <- createPayPalOrder amount description
                  (truthy requiresShipping) ;;
       ret (NextResponse_json order 200))
    (fun error =>
       let message := message_or "An unknown error occurred" error in
       ret (NextResponse_json (JObj [("error", JStr message)]) 500)).

End WithRuntime.
End Part000.

(** ** header.tsx, lines 160-293 *)

Module HeaderTsxB.
Section WithRuntime.
Context `{Runtime}.

Definition PAYPAL_CLIENT_ID : option string := process_env "PAYPAL_CLIENT_ID".
Definition PAYPAL_CLIENT_SECRET : option string := process_env "PAYPAL_SECRET".

(** [process.env.PAYPAL_MODE === 'live'] *)
Definition mode_is_live : bool :=
  match process_env "PAYPAL_MODE" with
  | Some m => String.eqb m "live"
  | None => false
  end.

Definition base : string :=
  if mode_is_live
  then "https://api-m.paypal.com"
  else "https://api-m.sandbox.paypal.com".

Definition token_request : Call :=
  let auth :=
    base64 (env_text PAYPAL_CLIENT_ID ++ ":" ++ env_text PAYPAL_CLIENT_SECRET) in
  {| url := base ++ "/v1/oauth2/token";
     method := "POST";
     headers := [("Content-Type", "application/x-www-form-urlencoded");
                 ("Authorization", "Basic " ++ auth)];
     body := Text "grant_type=client_credentials" |}.

Definition getPayPalAccessToken : M Value :=
  if negb (env_truthy PAYPAL_CLIENT_ID) || negb (env_truthy PAYPAL_CLIENT_SECRET)
  then
    let errorMessage := "PayPal API credentials (PAYPAL_CLIENT_ID or PAYPAL_SECRET) are not configured on the server. Please check your Netlify environment variables." in
    console_error [LStr "MISSING_PAYPAL_API_CREDENTIALS:"; LStr errorMessage] ;;
    throw (new_Error errorMessage)
  else
    console_log
      [LStr ("Attempting PayPal auth with Client ID ending in ..."
             ++ slice_last4 (env_text PAYPAL_CLIENT_ID)
             ++ " for "
             ++ (if env_truthy (process_env "PAYPAL_MODE")
                 then env_text (process_env "PAYPAL_MODE")
                 else "sandbox")
             ++ " environment.")] ;;
    response <- fetch token_request ;;
    if negb (ok response) then
      errorBody <- response_text response ;;
      console_error [LStr "PayPal Access Token API Error Response:";
                     LStr errorBody] ;;
      try_catch
        (errorJson <- parse errorBody ;;
         code <- member (Some errorJson) "error" ;;
         if strict_eq_string code "invalid_client" then
           (console_error [LStr "PayPal authentication failed: 'invalid_client'. This is almost always due to an incorrect PAYPAL_CLIENT_ID or PAYPAL_SECRET in your environment variables."] ;;
            throw (new_Error "PayPal client authentication failed. Please check server configuration and credentials on Netlify."))
         else
           (error_description <- member (Some errorJson) "error_description" ;;
            error <- member (Some errorJson) "error" ;;
            throw (new_Error
                     ("Failed to get access token from PayPal: "
                      ++ template
                           (or_else (or_else error_description error)
                              (Some (JStr "Unknown PayPal error")))
                      ++ ". Check server logs for details."))))
        (fun e =>
           console_error
             [LStr "Failed to parse PayPal error response as JSON:"; LErr e] ;;
           throw (new_Error
                    ("Failed to get access token from PayPal. Raw error: "
                     ++ errorBody ++ ". Check server logs for details.")))
    else
      data <- response_json response ;;
      console_log [LStr "Successfully obtained PayPal access token."] ;;
      member (Some data) "access_token".

Definition order_body (amount description : Value) (requiresShipping : bool)
  : JSON :=
  object_literal
    [("intent", Some (JStr "CAPTURE"));
     ("purchase_units",
      Some (JArr
        [object_literal
           [("amount",
             Some (object_literal
                     [("currency_code", Some (JStr "USD"));
                      ("value", amount)]));
            ("description", description)]]));
     ("application_context",
      Some (object_literal
        [("shipping_preference",
          Some (JStr (if requiresShipping then "GET_FROM_FILE"
                      else "NO_SHIPPING")))]))].

Definition order_request (amount description : Value)
  (requiresShipping : bool) (accessToken : Value) : Call :=
  {| url := base ++ "/v2/checkout/orders";
     method := "POST";
     headers := [("Content-Type", "application/json");
                 ("Authorization", "Bearer " ++ template accessToken)];
     body := Stringified (order_body amount description requiresShipping) |}.

Definition createPayPalOrder (amount description : Value)
  (requiresShipping : bool) : M JSON :=
  accessToken <- getPayPalAccessToken ;;
  response <- fetch (order_request amount description requiresShipping
                       accessToken) ;;
  if negb (ok response) then
    errorData <- response_text response ;;
    console_error [LStr "Failed to create PayPal order:"; LStr errorData] ;;
    try_catch
      (errorJson <- parse errorData ;;
       details <- member (Some errorJson) "details" ;;
       message <- member (Some errorJson) "message" ;;
       throw (new_Error
                ("Failed to create order with PayPal: "
                 ++ template
                      (or_else
                         (or_else
                            (opt_member (opt_index0 details) "description")
                            message)
                         (Some (JStr "Unknown error")))
                 ++ ".")))
      (fun e =>
         throw (new_Error
                  ("Failed to create order with PayPal. Raw error: "
                   ++ errorData ++ ".")))
  else
    orderData <- response_json response ;;
    id <- member (Some orderData) "id" ;;
    console_log [LStr "Successfully created PayPal order:"; LVal id] ;;
    ret orderData.

Definition POST (request : Request) : M HttpResponse :=
  try_catch
    (parsed <- request_json request ;;
     fields <- destructure_request parsed ;;
     let '(amount, description, requiresShipping) := fields in
     if negb (truthy amount) || negb (truthy description) then
       ret (NextResponse_json
              (JObj [("error",
                      JStr "Missing amount or description in request body")])
              400)
     else
       order <- createPayPalOrder amount description
                  (truthy requiresShipping) ;;
       ret (NextResponse_json order 200))
    (fun error =>
       let message :=
         message_or "An unknown error occurred during PayPal order creation."
           error in
       console_error [LStr "Error in POST /api/paypal/create-order:";
                      LErr error] ;;
       ret (NextResponse_json (JObj [("error", JStr message)]) 500)).

End WithRuntime.
End HeaderTsxB.

(** ** The four revisions side by side *)

Inductive Revision : Type :=
| route_ts
| header_tsx_a
| part_000
| header_tsx_b.

Section Gateway.
Context `{Runtime}.

Definition handler (r : Revision) : Request -> M HttpResponse :=
  match r with
  | route_ts => RouteTs.POST
  | header_tsx_a => HeaderTsxA.POST
  | part_000 => Part000.POST
  | header_tsx_b => HeaderTsxB.POST
  end.

Definition client_id (r : Revision) : option string :=
  match r with
  | route_ts => RouteTs.PAYPAL_CLIENT_ID
  | header_tsx_a => HeaderTsxA.PAYPAL_CLIENT_ID
  | part_000 => Part000.PAYPAL_CLIENT_ID
  | header_tsx_b => HeaderTsxB.PAYPAL_CLIENT_ID
  end.

Definition client_secret (r : Revision) : option string :=
  match r with
  | route_ts => RouteTs.PAYPAL_CLIENT_SECRET
  | header_tsx_a => HeaderTsxA.PAYPAL_CLIENT_SECRET
  | part_000 => Part000.PAYPAL_CLIENT_SECRET
  | header_tsx_b => HeaderTsxB.PAYPAL_CLIENT_SECRET
  end.

Definition credentials_present (r : Revision) : bool :=
  env_truthy (client_id r) && env_truthy (client_secret r).

Definition base_url (r : Revision) : string :=
  match r with
  | route_ts => RouteTs.base
  | header_tsx_a => HeaderTsxA.base
  | part_000 => Part000.base
  | header_tsx_b => HeaderTsxB.base
  end.

Definition token_call (r : Revision) : Call :=
  match r with
  | route_ts => RouteTs.token_request
  | header_tsx_a => HeaderTsxA.token_request
  | part_000 => Part000.token_request
  | header_tsx_b => HeaderTsxB.token_request
  end.

Definition order_call (r : Revision) (amount description : Value)
  (requiresShipping : bool) (accessToken : Value) : Call :=
  match r with
  | route_ts => RouteTs.order_request amount description requiresShipping accessToken
  | header_tsx_a => HeaderTsxA.order_request amount description requiresShipping accessToken
  | part_000 => Part000.order_request amount description requiresShipping accessToken
  | header_tsx_b => HeaderTsxB.order_request amount description requiresShipping accessToken
  end.

Definition getPayPalAccessToken (r : Revision) : M Value :=
  match r with
  | route_ts => RouteTs.getPayPalAccessToken
  | header_tsx_a => HeaderTsxA.getPayPalAccessToken
  | part_000 => Part000.getPayPalAccessToken
  | header_tsx_b => HeaderTsxB.getPayPalAccessToken
  end.

Definition createPayPalOrder (r : Revision) : Value -> Value -> bool -> M JSON :=
  match r with
  | route_ts => RouteTs.createPayPalOrder
  | header_tsx_a => HeaderTsxA.createPayPalOrder
  | part_000 => Part000.createPayPalOrder
  | header_tsx_b => HeaderTsxB.createPayPalOrder
  end.

(** The envelope of every failure: [{ error: message }]. *)
Definition error_envelope (message : string) : JSON :=
  JObj [("error", JStr message)].


Fixpoint assoc_header (name : string) (hs : list (string * string))
  : option string :=
  match hs with
  | [] => None
  | (k, v) :: rest => if String.eqb k name then Some v else assoc_header name rest
  end.

Definition is_order_call (r : Revision) (c : Call) : bool :=
  String.eqb (url c) (base_url r ++ "/v2/checkout/orders").

End Gateway.

(** ** What one invocation amounts to

    The three functions below restate, without the console, what
    [getPayPalAccessToken] and [createPayPalOrder] compute from the calls
    made so far; [getPayPalAccessToken_summary] and
    [createPayPalOrder_summary] prove that the code does exactly this. *)

Section Summary.
Context `{Runtime}.

(** The message thrown when a credential is missing. *)
Definition missing_credentials_message (r : Revision) : string :=
  match r with
  | route_ts => "MISSING_PAYPAL_API_CREDENTIALS"
  | header_tsx_a | part_000 =>
      "PayPal API credentials are not configured on the server."
  | header_tsx_b =>
      "PayPal API credentials (PAYPAL_CLIENT_ID or PAYPAL_SECRET) are not configured on the server. Please check your Netlify environment variables."
  end.

(** The message thrown when the token endpoint answers [upstream] with a
    status that is not a success. *)
Definition token_failure_message (r : Revision) (upstream : string) : string :=
  match r with
  | route_ts => "Failed to get access token: " ++ upstream
  | header_tsx_a => "Failed to get access token from PayPal."
  | part_000 =>
      "Failed to get access token from PayPal. Check server logs for details."
  | header_tsx_b =>
      "Failed to get access token from PayPal. Raw error: " ++ upstream
        ++ ". Check server logs for details."
  end.

(** The same for the order endpoint. *)
Definition order_failure_message (r : Revision) (upstream : string) : string :=
  match r with
  | route_ts => "Failed to create order: " ++ upstream
  | header_tsx_a | part_000 => "Failed to create order with PayPal."
  | header_tsx_b =>
      "Failed to create order with PayPal. Raw error: " ++ upstream ++ "."
  end.

Definition token_outcome (r : Revision) (history : list Call) : Outcome Value :=
  if negb (credentials_present r) then
    Throws (ErrorObject (missing_credentials_message r))
  else
    match network history (token_call r) with
    | Rejects e => Throws e
    | Resolves response =>
        if negb (ok response) then
          Throws (ErrorObject (token_failure_message r (text response)))
        else
          match JSON_parse (text response) with
          | SyntaxError m => Throws (ErrorObject m)
          | Parses JNull =>
              Throws (ErrorObject
                        (TypeError_message (ReadOfNull "access_token")))
          | Parses data => Returns (get_own data "access_token")
          end
    end.

Definition order_outcome (r : Revision) (amount description : Value)
  (requiresShipping : bool) (history : list Call) : Outcome JSON :=
  match token_outcome r history with
  | Throws e => Throws e
  | Returns accessToken =>
      match network (history ++ [token_call r])%list
              (order_call r amount description requiresShipping accessToken)
      with
      | Rejects e => Throws e
      | Resolves response =>
          if negb (ok response) then
            Throws (ErrorObject (order_failure_message r (text response)))
          else
            match JSON_parse (text response) with
            | SyntaxError m => Throws (ErrorObject m)
            | Parses order =>
                match r, order with
                | header_tsx_b, JNull =>
                    Throws (ErrorObject (TypeError_message (ReadOfNull "id")))
                | _, _ => Returns order
                end
            end
      end
  end.

(** The outbound calls of one invocation of [createPayPalOrder]. *)
Definition outbound (r : Revision) (amount description : Value)
  (requiresShipping : bool) (history : list Call) : list Call :=
  match token_outcome r history with
  | Returns accessToken =>
      [token_call r;
       order_call r amount description requiresShipping accessToken]
  | Throws _ => if credentials_present r then [token_call r] else []
  end.

(** The fallback of [error instanceof Error ? error.message : ...]. *)
Definition unknown_error_message (r : Revision) : string :=
  match r with
  | route_ts | header_tsx_a | part_000 => "An unknown error occurred"
  | header_tsx_b => "An unknown error occurred during PayPal order creation."
  end.

(** What the [catch] of [POST] answers. *)
Definition failure_response (r : Revision) (e : Thrown) : HttpResponse :=
  {| status := 500;
     payload := error_envelope (message_or (unknown_error_message r) e) |}.

(** What [POST] answers once the guard is passed. *)
Definition answer (r : Revision) (o : Outcome JSON) : HttpResponse :=
  match o with
  | Returns order => {| status := 200; payload := order |}
  | Throws e => failure_response r e
  end.


(** Following the words of the specification: the endpoint selected by
    the operating-mode flag of the environment, production when the
    mode is live and sandbox otherwise. *)
Definition selected_base : string :=
  match process_env "PAYPAL_MODE" with
  | Some mode =>
      if String.eqb mode "live"
      then "https://api-m.paypal.com"
      else "https://api-m.sandbox.paypal.com"
  | None => "https://api-m.sandbox.paypal.com"
  end.

End Summary.

(** ** A concrete runtime

    Fixtures on which the statements below are evaluated: JSON texts
    without escapes, the V8 wording of the engine's errors, and a
    network that plays the payment processor. *)

Module Fixture.

Definition quote : string := String "034"%char EmptyString.

Definition quoted (s : string) : string := quote ++ s ++ quote.

(** Compact JSON text of a value (strings without escapes; the fixtures
    hold no numbers). *)
Fixpoint print (j : JSON) : string :=
  match j with
  | JNull => "null"
  | JBool true => "true"
  | JBool false => "false"
  | JNum _ => "0"
  | JStr s => quoted s
  | JArr items => "[" ++ String.concat "," (map print items) ++ "]"
  | JObj fields =>
      "{" ++ String.concat ","
               (map (fun kv => quoted (fst kv) ++ ":" ++ print (snd kv)) fields)
          ++ "}"
  end.

(** The spec's scenario request and two others. *)
Definition checkout : JSON :=
  JObj [("amount", JStr "10.00"); ("description", JStr "4x6 prints");
        ("requiresShipping", JBool false)].

Definition checkout_shipped : JSON :=
  JObj [("amount", JStr "10.00"); ("description", JStr "4x6 prints");
        ("requiresShipping", JBool true)].

Definition no_amount : JSON := JObj [("description", JStr "prints")].

Definition empty_amount : JSON :=
  JObj [("amount", JStr ""); ("description", JStr "prints")].

Definition token_grant : JSON :=
  JObj [("access_token", JStr "A21AAFs9"); ("token_type", JStr "Bearer")].

Definition token_grant_renewed : JSON :=
  JObj [("access_token", JStr "A21AAQx7"); ("token_type", JStr "Bearer")].

Definition created_order : JSON :=
  JObj [("id", JStr "ORDER123"); ("status", JStr "CREATED")].

Definition invalid_client : JSON :=
  JObj [("error", JStr "invalid_client");
        ("error_description", JStr "Client Authentication failed")].

Definition documents : list JSON :=
  [checkout; checkout_shipped; no_amount; empty_amount; token_grant;
   token_grant_renewed; created_order; invalid_client; JNull].

(** [JSON.parse] on the texts of [documents]; any other text is taken as
    malformed. *)
Definition JSON_parse (s : string) : ParseResult :=
  match find (fun d => String.eqb (print d) s) documents with
  | Some d => Parses d
  | None => SyntaxError "Unexpected end of JSON input"
  end.

Definition alphabet : string :=
  "ABCDEFGHIJKLMNOPQRSTUVWXYZabcdefghijklmnopqrstuvwxyz0123456789+/".

Definition sextet (n : nat) : string :=
  match String.get n alphabet with
  | Some c => String c EmptyString
  | None => EmptyString
  end.

Fixpoint encode (bytes : list nat) : string :=
  match bytes with
  | [] => ""
  | [a] => sextet (a / 4) ++ sextet ((a mod 4) * 16) ++ "=="
  | [a; b] =>
      sextet (a / 4) ++ sextet ((a mod 4) * 16 + b / 16)
        ++ sextet ((b mod 16) * 4) ++ "="
  | a :: b :: c :: rest =>
      sextet (a / 4) ++ sextet ((a mod 4) * 16 + b / 16)
        ++ sextet ((b mod 16) * 4 + c / 64) ++ sextet (c mod 64)
        ++ encode rest
  end.

Definition base64 (s : string) : string :=
  encode (map nat_of_ascii (list_ascii_of_string s)).

(** No fixture formats a number other than zero. *)
Definition Number_toString (n : float) : string :=
  if PrimFloat.eqb n 0%float then "0" else "NaN".

Definition TypeError_message (f : Fault) : string :=
  match f with
  | DestructureNull p =>
      "Cannot destructure property '" ++ p
        ++ "' of '(intermediate value)' as it is null."
  | ReadOfNull p => "Cannot read properties of null (reading '" ++ p ++ "')"
  end.

(** Environments. *)
Definition env_configured (mode : option string) (name : string)
  : option string :=
  if String.eqb name "NEXT_PUBLIC_PAYPAL_CLIENT_ID" then Some "AZclient9f3k"
  else if String.eqb name "PAYPAL_CLIENT_ID" then Some "AZclient9f3k"
  else if String.eqb name "PAYPAL_CLIENT_SECRET" then Some "s3cr3t"
  else if String.eqb name "PAYPAL_SECRET" then Some "s3cr3t"
  else if String.eqb name "PAYPAL_MODE" then mode
  else None.

Definition env_empty (name : string) : option string := None.

(** Processors: one that grants a token and creates the order, one
    that refuses the client. *)
Definition is_suffix (suffix s : string) : bool :=
  String.eqb
    (substring (String.length s - String.length suffix)
       (String.length suffix) s)
    suffix.

Definition processor_ok (history : list Call) (c : Call) : FetchResult :=
  if is_suffix "/v1/oauth2/token" (url c)
  then Resolves {| ok := true; text := print token_grant |}
  else Resolves {| ok := true; text := print created_order |}.

(** A processor whose tokens change from one exchange to the next. *)
Definition processor_rotating (history : list Call) (c : Call) : FetchResult :=
  if is_suffix "/v1/oauth2/token" (url c)
  then match history with
       | [] => Resolves {| ok := true; text := print token_grant |}
       | _ :: _ => Resolves {| ok := true; text := print token_grant_renewed |}
       end
  else Resolves {| ok := true; text := print created_order |}.

Definition processor_refuses (history : list Call) (c : Call) : FetchResult :=
  if is_suffix "/v1/oauth2/token" (url c)
  then Resolves {| ok := false; text := print invalid_client |}
  else Resolves {| ok := true; text := print created_order |}.

Definition runtime (env : string -> option string)
  (net : list Call -> Call -> FetchResult) : Runtime :=
  {| JS.JSON_parse := JSON_parse;
     JS.base64 := base64;
     JS.Number_toString := Number_toString;
     JS.TypeError_message := TypeError_message;
     JS.process_env := env;
     JS.network := net |}.

Definition happy : Runtime := runtime (env_configured None) processor_ok.
Definition refused : Runtime := runtime (env_configured None) processor_refuses.
Definition unconfigured : Runtime := runtime env_empty processor_ok.
Definition live : Runtime :=
  runtime (env_configured (Some "live")) processor_ok.

Definition rotating : Runtime :=
  runtime (env_configured None) processor_rotating.

Definition request_of (j : JSON) : Request := {| body_text := print j |}.

Definition fresh : World := {| calls := []; console := [] |}.

(** The world after one successful checkout against [rotating]. *)
Definition after_first_order : World :=
  snd (@handler rotating route_ts (request_of checkout) fresh).

End Fixture.

(** ** Situations of one invocation *)

Section Situations.
Context `{Runtime}.

(** The request body parses to [b] and gets past the guard of [POST]. *)
Definition accepted (request : Request) (b : JSON) : Prop :=
  JSON_parse (body_text request) = Parses b
  /\ b <> JNull
  /\ truthy (get_own b "amount") = true
  /\ truthy (get_own b "description") = true.

(** The credentials are configured and the token call made after
    [history] is answered with a success whose body parses to [data]. *)
Definition token_granted (r : Revision) (history : list Call)
  (token_response : Response) (data : JSON) : Prop :=
  credentials_present r = true
  /\ network history (token_call r) = Resolves token_response
  /\ ok token_response = true
  /\ JSON_parse (text token_response) = Parses data
  /\ data <> JNull.

(** The order-creation call for the request body [b] with the token of
    [data]. *)
Definition order_call_for (r : Revision) (b data : JSON) : Call :=
  order_call r (get_own b "amount") (get_own b "description")
    (truthy (get_own b "requiresShipping")) (get_own data "access_token").

End Situations.

(** ** header.tsx, lines 1-64: the [Header] component *)

Module Header.

(** The signed-in user as the component reads it; each field is a
    string or [null]. *)
Record User : Type := {
  email : option string;
  displayName : option string;
  photoURL : option string
}.

(** What the component acts on: the paths navigated to (given to
    [router.push], or the [href] of a [Link] that is followed) and the
    console. *)
Record Browser : Type := {
  pushed : list string;
  console : list LogEntry
}.

Definition router_push (path : string) (ui : Browser) : Browser :=
  {| pushed := (pushed ui ++ [path])%list; console := console ui |}.

(** [handleSignOut]; [signOut] is what [await signOut(auth)] does. *)
Definition handleSignOut (signOut : Outcome unit) (ui : Browser) : Browser :=
  match signOut with
  | Returns _ => router_push "/" ui
  | Throws error =>
      {| pushed := pushed ui;
         console := (console ui
                     ++ [console_error_entry
                           [LStr "Error signing out: "; LErr error]])%list |}
  end.

(** [toUpperCase] on ASCII text: the letters a-z go to A-Z, every other
    ASCII character stays. *)
Definition is_lower (c : ascii) : bool :=
  Nat.leb 97 (nat_of_ascii c) && Nat.leb (nat_of_ascii c) 122.

Definition upper_ascii (c : ascii) : ascii :=
  if is_lower c then ascii_of_nat (nat_of_ascii c - 32) else c.

Fixpoint toUpperCase (s : string) : string :=
  match s with
  | EmptyString => EmptyString
  | String c rest => String (upper_ascii c) (toUpperCase rest)
  end.

(** [s.charAt(0)] *)
Definition charAt0 (s : string) : string :=
  match s with
  | EmptyString => EmptyString
  | String c _ => String c EmptyString
  end.

(** [user.email?.charAt(0).toUpperCase()] *)
Definition avatarFallback (user : User) : option string :=
  match email user with
  | None => None
  | Some e => Some (toUpperCase (charAt0 e))
  end.

(** [user.photoURL && <AvatarImage src=... alt={user.displayName || 'User'} />]:
    the [src] and [alt] of the image, when there is one. *)
Definition avatarImage (user : User) : option (string * string) :=
  if env_truthy (photoURL user)
  then Some (env_text (photoURL user),
             if env_truthy (displayName user)
             then env_text (displayName user) else "User")
  else None.

Inductive Action : Type :=
| Push (path : string)
| HandleSignOut
| FollowLink (href : string)
| OpenMenu.

Record Control : Type := {
  label : string;
  onClick : Action
}.

Inductive AccountArea : Type :=
| AccountMenu (image : option (string * string)) (fallback : option string)
    (items : list Control)
| SignInButtons (buttons : list Control).

(** The part of the header that depends on [user]. *)
Definition accountArea (user : option User) : AccountArea :=
  match user with
  | Some u =>
      AccountMenu (avatarImage u) (avatarFallback u)
        [{| label := "Profile"; onClick := Push "/profile" |};
         {| label := "Log out"; onClick := HandleSignOut |}]
  | None =>
      SignInButtons
        [{| label := "Log In"; onClick := Push "/login" |};
         {| label := "Sign Up"; onClick := Push "/signup" |}]
  end.

(** The whole header: the title, a [Link] to [/], then the account
    area. *)
Record View : Type := {
  title : Control;
  account : AccountArea
}.

Definition Header (user : option User) : View :=
  {| title := {| label := "Locket Photo Print"; onClick := FollowLink "/" |};
     account := accountArea user |}.

(** Everything of the header that can be clicked: the title, and either
    the avatar button (the trigger of the menu) with the items of the
    menu, or the two buttons. *)
Definition controls (v : View) : list Control :=
  title v
  :: match account v with
     | AccountMenu _ fallback items =>
         {| label := match fallback with Some t => t | None => "" end;
            onClick := OpenMenu |}
         :: items
     | SignInButtons buttons => buttons
     end.

(** A click.  Opening the menu changes neither the route nor the
    console; whether the menu is open is state of the menu component. *)
Definition click (a : Action) (signOut : Outcome unit) (ui : Browser)
  : Browser :=
  match a with
  | Push path => router_push path ui
  | HandleSignOut => handleSignOut signOut ui
  | FollowLink href => router_push href ui
  | OpenMenu => ui
  end.

End Header.

(** ** More fixtures: a processor given by its two answers *)

Module Scenario.

Definition no_token : JSON := JObj [("token_type", JStr "Bearer")].

Definition order_error : JSON :=
  JObj [("name", JStr "UNPROCESSABLE_ENTITY");
        ("details",
         JArr [JObj [("issue", JStr "CURRENCY_NOT_SUPPORTED");
                     ("description", JStr "Currency is not supported")]]);
        ("message", JStr "The requested action could not be performed")].

Definition gateway_page : string := "<html>502 Bad Gateway</html>".

Definition documents : list JSON :=
  [Fixture.checkout; Fixture.token_grant; Fixture.created_order;
   Fixture.invalid_client; no_token; order_error; JNull].

Definition JSON_parse (s : string) : ParseResult :=
  match find (fun d => String.eqb (Fixture.print d) s) documents with
  | Some d => Parses d
  | None => SyntaxError "Unexpected token < in JSON at position 0"
  end.

Definition processor (token_answer order_answer : FetchResult)
  (history : list Call) (c : Call) : FetchResult :=
  if Fixture.is_suffix "/v1/oauth2/token" (url c)
  then token_answer else order_answer.

Definition success (j : JSON) : FetchResult :=
  Resolves {| ok := true; text := Fixture.print j |}.

Definition failure (j : JSON) : FetchResult :=
  Resolves {| ok := false; text := Fixture.print j |}.

Definition runtime (mode : option string)
  (token_answer order_answer : FetchResult) : Runtime :=
  {| JS.JSON_parse := JSON_parse;
     JS.base64 := Fixture.base64;
     JS.Number_toString := Fixture.Number_toString;
     JS.TypeError_message := Fixture.TypeError_message;
     JS.process_env := Fixture.env_configured mode;
     JS.network := processor token_answer order_answer |}.

Definition page : FetchResult :=
  Resolves {| ok := true; text := gateway_page |}.

Definition healthy : Runtime :=
  runtime None (success Fixture.token_grant) (success Fixture.created_order).
Definition token_down : Runtime :=
  runtime None (Rejects (ErrorObject "fetch failed"))
    (success Fixture.created_order).
Definition token_page : Runtime :=
  runtime None page (success Fixture.created_order).
Definition token_null : Runtime :=
  runtime None (success JNull) (success Fixture.created_order).
Definition token_without_access : Runtime :=
  runtime None (success no_token) (success Fixture.created_order).
Definition client_refused : Runtime :=
  runtime None (failure Fixture.invalid_client)
    (success Fixture.created_order).
Definition order_null : Runtime :=
  runtime None (success Fixture.token_grant) (success JNull).
Definition production_mode : Runtime :=
  runtime (Some "production") (success Fixture.token_grant)
    (success Fixture.created_order).

Definition checkout_request : Request := Fixture.request_of Fixture.checkout.

Definition visitor : Header.User :=
  {| Header.email := Some "a@b.com";
     Header.displayName := None;
     Header.photoURL := None |}.

Definition idle : Header.Browser :=
  {| Header.pushed := []; Header.console := [] |}.

Definition html_request : Request := {| body_text := gateway_page |}.

Definition null_request : Request := Fixture.request_of JNull.

End Scenario.

(** * Properties *)

Ltac js_unfold :=
  unfold try_catch, bind, ret, throw, fetch, console_error, console_log,
    response_text, response_json, request_json, parse, member,
    destructure_request, NextResponse_json, new_Error in *.

Section Validation.
Context `{Runtime}.

(** The guard [!amount || !description] answers 400 and leaves the world
    as it was. *)
Lemma handler_rejects_falsy (r : Revision) (request : Request) (b : JSON)
  (w : World) :
  JSON_parse (body_text request) = Parses b ->
  b <> JNull ->
  negb (truthy (get_own b "amount"))
    || negb (truthy (get_own b "description")) = true ->
  handler r request w
  = (Returns {| status := 400;
                payload := JObj [("error",
                  JStr "Missing amount or description in request body")] |},
     w).
Proof.
  intros Hparse Hnull Hguard.
  destruct r; unfold handler, RouteTs.POST, HeaderTsxA.POST, Part000.POST,
    HeaderTsxB.POST; js_unfold; rewrite Hparse;
    destruct b; try congruence; simpl in *;
    first [reflexivity | rewrite Hguard; reflexivity].
Qed.

(** Past the guard the handler is [createPayPalOrder] under the [catch]. *)
Lemma handler_accepts_truthy (r : Revision) (request : Request) (b : JSON)
  (w : World) :
  JSON_parse (body_text request) = Parses b ->
  b <> JNull ->
  truthy (get_own b "amount") = true ->
  truthy (get_own b "description") = true ->
  handler r request w
  = match createPayPalOrder r (get_own b "amount") (get_own b "description")
            (truthy (get_own b "requiresShipping")) w with
    | (Returns order, w') => (Returns {| status := 200; payload := order |}, w')
    | (Throws e, w') =>
        match r with
        | route_ts =>
            (Returns {| status := 500;
                        payload := JObj [("error",
                          JStr (message_or "An unknown error occurred" e))] |},
             {| calls := calls w';
                console := (console w' ++
                  [console_error_entry
                     [LStr "Failed to create PayPal order:"; LErr e]])%list |})
        | header_tsx_a | part_000 =>
            (Returns {| status := 500;
                        payload := JObj [("error",
                          JStr (message_or "An unknown error occurred" e))] |},
             w')
        | header_tsx_b =>
            (Returns {| status := 500;
                        payload := JObj [("error",
                          JStr (message_or
                            "An unknown error occurred during PayPal order creation."
                            e))] |},
             {| calls := calls w';
                console := (console w' ++
                  [console_error_entry
                     [LStr "Error in POST /api/paypal/create-order:";
                      LErr e]])%list |})
        end
    end.
Proof.
  intros Hparse Hnull Ha Hd.
  destruct r; unfold handler, createPayPalOrder, RouteTs.POST, HeaderTsxA.POST,
    Part000.POST, HeaderTsxB.POST; js_unfold; rewrite Hparse;
    destruct b; try congruence; simpl in *; try discriminate;
    rewrite Ha, Hd; simpl;
    match goal with
    | |- context [match ?c w with _ => _ end] => destruct (c w) as [[order|e] w']
    end; reflexivity.
Qed.

End Validation.

Section Summaries.
Context `{Runtime}.

Ltac break_match :=
  match goal with
  | |- context [match ?x with _ => _ end] =>
      lazymatch x with
      | context [match _ with _ => _ end] => fail
      | _ => destruct x eqn:?
      end
  end.

Lemma getPayPalAccessToken_summary (r : Revision) (w : World) :
  fst (getPayPalAccessToken r w) = token_outcome r (calls w)
  /\ calls (snd (getPayPalAccessToken r w))
     = (calls w ++ if credentials_present r then [token_call r] else [])%list.
Proof.
  destruct r;
    unfold getPayPalAccessToken, token_outcome, credentials_present,
      client_id, client_secret, token_call,
      RouteTs.getPayPalAccessToken, HeaderTsxA.getPayPalAccessToken,
      Part000.getPayPalAccessToken, HeaderTsxB.getPayPalAccessToken;
    js_unfold.
  all: repeat match goal with
              | |- context [env_truthy ?x] => destruct (env_truthy x) eqn:?
              end.
  all: repeat (simpl; break_match); simpl; try discriminate.
  all: try (split; [reflexivity | auto using app_nil_r]).
Qed.

Lemma token_needs_credentials (r : Revision) (history : list Call)
  (accessToken : Value) :
  token_outcome r history = Returns accessToken ->
  credentials_present r = true.
Proof.
  unfold token_outcome.
  destruct (credentials_present r); [reflexivity | discriminate].
Qed.

Lemma createPayPalOrder_summary (r : Revision) (amount description : Value)
  (requiresShipping : bool) (w : World) :
  fst (createPayPalOrder r amount description requiresShipping w)
  = order_outcome r amount description requiresShipping (calls w)
  /\ calls (snd (createPayPalOrder r amount description requiresShipping w))
     = (calls w
        ++ outbound r amount description requiresShipping (calls w))%list.
Proof.
  destruct (getPayPalAccessToken_summary r w) as [Htoken Hcalls].
  unfold order_outcome, outbound.
  rewrite <- Htoken.
  destruct (fst (getPayPalAccessToken r w)) as [accessToken | e] eqn:Hfst.
  - symmetry in Htoken. apply token_needs_credentials in Htoken.
    rewrite Htoken in Hcalls.
    destruct r;
      unfold createPayPalOrder, getPayPalAccessToken, order_call, token_call,
        RouteTs.createPayPalOrder, HeaderTsxA.createPayPalOrder,
        Part000.createPayPalOrder, HeaderTsxB.createPayPalOrder in *;
      js_unfold;
      match goal with
      | |- context [match ?c w with _ => _ end] =>
          destruct (c w) as [[tok | e'] w1]
      end; simpl in *; try discriminate;
      injection Hfst as ->; rewrite Hcalls.
    all: repeat (simpl; break_match); simpl; try discriminate.
    all: split; [reflexivity | rewrite <- app_assoc; reflexivity].
  - destruct r;
      unfold createPayPalOrder, getPayPalAccessToken, order_call, token_call,
        RouteTs.createPayPalOrder, HeaderTsxA.createPayPalOrder,
        Part000.createPayPalOrder, HeaderTsxB.createPayPalOrder in *;
      js_unfold;
      match goal with
      | |- context [match ?c w with _ => _ end] =>
          destruct (c w) as [[tok | e'] w1]
      end; simpl in *; try discriminate;
      injection Hfst as ->; (split; [reflexivity | exact Hcalls]).
Qed.

(** [POST] past the guard: the answer and the outbound calls. *)
Lemma handler_summary (r : Revision) (request : Request) (b : JSON)
  (w : World) :
  JSON_parse (body_text request) = Parses b ->
  b <> JNull ->
  truthy (get_own b "amount") = true ->
  truthy (get_own b "description") = true ->
  exists w',
    handler r request w
    = (Returns
         (answer r
            (order_outcome r (get_own b "amount") (get_own b "description")
               (truthy (get_own b "requiresShipping")) (calls w))),
       w')
    /\ calls w'
       = (calls w
          ++ outbound r (get_own b "amount") (get_own b "description")
               (truthy (get_own b "requiresShipping")) (calls w))%list.
Proof.
  intros Hparse Hnull Ha Hd.
  rewrite (handler_accepts_truthy r request b w Hparse Hnull Ha Hd).
  destruct (createPayPalOrder_summary r (get_own b "amount")
              (get_own b "description")
              (truthy (get_own b "requiresShipping")) w) as [Ho Hc].
  destruct (createPayPalOrder r (get_own b "amount") (get_own b "description")
              (truthy (get_own b "requiresShipping")) w) as [[order | e] w1];
    simpl in Ho, Hc; rewrite <- Ho.
  - exists w1. split; [reflexivity | exact Hc].
  - destruct r; eexists; (split; [reflexivity | exact Hc]).
Qed.

(** A body that is not JSON, or the JSON text [null], ends in the
    [catch] before any call. *)
Lemma handler_malformed (r : Revision) (request : Request) (m : string)
  (w : World) :
  JSON_parse (body_text request) = SyntaxError m ->
  exists w',
    handler r request w = (Returns (failure_response r (ErrorObject m)), w')
    /\ calls w' = calls w.
Proof.
  intros Hparse.
  destruct r; unfold handler, RouteTs.POST, HeaderTsxA.POST, Part000.POST,
    HeaderTsxB.POST; js_unfold; rewrite Hparse; simpl;
    eexists; (split; [reflexivity | reflexivity]).
Qed.

Lemma handler_null_body (r : Revision) (request : Request) (w : World) :
  JSON_parse (body_text request) = Parses JNull ->
  exists w',
    handler r request w
    = (Returns
         (failure_response r
            (ErrorObject (TypeError_message (DestructureNull "amount")))),
       w')
    /\ calls w' = calls w.
Proof.
  intros Hparse.
  destruct r; unfold handler, RouteTs.POST, HeaderTsxA.POST, Part000.POST,
    HeaderTsxB.POST; js_unfold; rewrite Hparse; simpl;
    eexists; (split; [reflexivity | reflexivity]).
Qed.

Lemma token_failure_outcome (r : Revision) (history : list Call)
  (token_response : Response) :
  credentials_present r = true ->
  network history (token_call r) = Resolves token_response ->
  ok token_response = false ->
  token_outcome r history
  = Throws (ErrorObject (token_failure_message r (text token_response))).
Proof.
  intros Hcred Hnet Hok. unfold token_outcome.
  rewrite Hcred, Hnet, Hok. reflexivity.
Qed.

Lemma token_success_outcome (r : Revision) (history : list Call)
  (token_response : Response) (data : JSON) :
  credentials_present r = true ->
  network history (token_call r) = Resolves token_response ->
  ok token_response = true ->
  JSON_parse (text token_response) = Parses data ->
  data <> JNull ->
  token_outcome r history = Returns (get_own data "access_token").
Proof.
  intros Hcred Hnet Hok Hparse Hnull. unfold token_outcome.
  rewrite Hcred, Hnet, Hok, Hparse. destruct data; simpl; congruence.
Qed.

Lemma token_call_is_not_order_call (r : Revision) :
  is_order_call r (token_call r) = false.
Proof.
  destruct r; unfold is_order_call, token_call, base_url; try reflexivity.
  unfold HeaderTsxB.token_request, HeaderTsxB.base.
  destruct HeaderTsxB.mode_is_live; reflexivity.
Qed.


Lemma order_outcome_returns (r : Revision) (amount description : Value)
  (requiresShipping : bool) (history : list Call) (order : JSON) :
  order_outcome r amount description requiresShipping history = Returns order ->
  exists (accessToken : Value) (order_response : Response),
    token_outcome r history = Returns accessToken
    /\ network (history ++ [token_call r])%list
         (order_call r amount description requiresShipping accessToken)
       = Resolves order_response
    /\ ok order_response = true
    /\ JSON_parse (text order_response) = Parses order.
Proof.
  unfold order_outcome.
  destruct (token_outcome r history) as [tok | e]; [| discriminate].
  destruct (network _ _) as [orr | e] eqn:Hnet; [| discriminate].
  destruct (ok orr) eqn:Hok; simpl; [| discriminate].
  destruct (JSON_parse (text orr)) as [m | o] eqn:Hparse; [discriminate |].
  intros Hret. exists tok, orr.
  assert (o = order) by (destruct r, o; congruence).
  subst o. auto.
Qed.



End Summaries.

Section Claims.
Context `{Runtime}.

(** C1, as amended.  A request whose parsed JSON body is not [null] and
    lacks [amount] or lacks [description] is answered with status 400
    and the body
    [{ error: "Missing amount or description in request body" }]; the
    world is left as it was, so no call leaves the process and no order
    creation is attempted. *)
Theorem missing_field_is_bad_request (r : Revision) (request : Request)
  (b : JSON) (w : World) :
  JSON_parse (body_text request) = Parses b ->
  b <> JNull ->
  get_own b "amount" = undefined \/ get_own b "description" = undefined ->
  handler r request w
  = (Returns {| status := 400;
                payload := JObj [("error",
                  JStr "Missing amount or description in request body")] |},
     w).
Proof.
  intros Hparse Hnull Hmissing.
  apply (handler_rejects_falsy r request b w Hparse Hnull).
  destruct Hmissing as [-> | ->]; simpl; [reflexivity | apply orb_true_r].
Qed.


(** C5. When the token endpoint answers with a status that is not a
    success, the handler answers 500 with an error envelope, and the
    only call that left the process is the token call: the
    order-creation call is never issued. *)
Theorem token_failure_short_circuits (r : Revision) (request : Request)
  (b : JSON) (w : World) (token_response : Response) :
  JSON_parse (body_text request) = Parses b ->
  b <> JNull ->
  truthy (get_own b "amount") = true ->
  truthy (get_own b "description") = true ->
  credentials_present r = true ->
  network (calls w) (token_call r) = Resolves token_response ->
  ok token_response = false ->
  exists m w',
    handler r request w
    = (Returns {| status := 500; payload := JObj [("error", JStr m)] |}, w')
    /\ calls w' = (calls w ++ [token_call r])%list
    /\ is_order_call r (token_call r) = false.
Proof.
  intros Hparse Hnull Ha Hd Hcred Hnet Hok.
  destruct (handler_summary r request b w Hparse Hnull Ha Hd)
    as [w' [Hrun Hcalls]].
  unfold order_outcome, outbound in *.
  rewrite (token_failure_outcome r (calls w) token_response Hcred Hnet Hok)
    in Hrun, Hcalls.
  rewrite Hcred in Hcalls.
  exists (token_failure_message r (text token_response)), w'.
  repeat split; [exact Hrun | exact Hcalls | apply token_call_is_not_order_call].
Qed.

(** C6. With truthy [amount] and [description], when the client
    identifier or the client secret is missing from the environment (or
    empty), the handler answers 500 with the revision's
    credentials-not-configured message, and no call leaves the
    process. *)
Theorem missing_credentials_fail_fast (r : Revision) (request : Request)
  (b : JSON) (w : World) :
  JSON_parse (body_text request) = Parses b ->
  b <> JNull ->
  truthy (get_own b "amount") = true ->
  truthy (get_own b "description") = true ->
  env_truthy (client_id r) = false \/ env_truthy (client_secret r) = false ->
  exists w',
    handler r request w
    = (Returns {| status := 500;
                  payload := JObj [("error",
                    JStr (missing_credentials_message r))] |},
       w')
    /\ calls w' = calls w.
Proof.
  intros Hparse Hnull Ha Hd Habsent.
  assert (Hcred : credentials_present r = false).
  { unfold credentials_present.
    destruct Habsent as [-> | ->]; [reflexivity | apply andb_false_r]. }
  destruct (handler_summary r request b w Hparse Hnull Ha Hd)
    as [w' [Hrun Hcalls]].
  unfold order_outcome, outbound, token_outcome in *.
  rewrite Hcred in Hrun, Hcalls. simpl in Hrun, Hcalls.
  rewrite app_nil_r in Hcalls.
  exists w'. split; [exact Hrun | exact Hcalls].
Qed.

(** X16. What the caller is told when the token endpoint refuses: the
    revision's [token_failure_message] of the upstream body. *)
Lemma token_failure_is_surfaced (r : Revision) (request : Request)
  (b : JSON) (w : World) (token_response : Response) :
  JSON_parse (body_text request) = Parses b ->
  b <> JNull ->
  truthy (get_own b "amount") = true ->
  truthy (get_own b "description") = true ->
  credentials_present r = true ->
  network (calls w) (token_call r) = Resolves token_response ->
  ok token_response = false ->
  fst (handler r request w)
  = Returns {| status := 500;
               payload := JObj [("error",
                 JStr (token_failure_message r (text token_response)))] |}.
Proof.
  intros Hparse Hnull Ha Hd Hcred Hnet Hok.
  destruct (handler_summary r request b w Hparse Hnull Ha Hd) as [w' [-> _]].
  unfold order_outcome.
  rewrite (token_failure_outcome r (calls w) token_response Hcred Hnet Hok).
  reflexivity.
Qed.

(** In header.tsx lines 65-159 and in part_000 that message is a
    constant: two upstream bodies cannot be told apart by the caller. *)
Lemma masked_token_failure (r : Revision) (upstream1 upstream2 : string) :
  r = header_tsx_a \/ r = part_000 ->
  token_failure_message r upstream1 = token_failure_message r upstream2.
Proof. intros [-> | ->]; reflexivity. Qed.


Lemma token_outcome_granted (r : Revision) (history : list Call)
  (accessToken : Value) :
  token_outcome r history = Returns accessToken ->
  exists (token_response : Response) (data : JSON),
    token_granted r history token_response data
    /\ accessToken = get_own data "access_token".
Proof.
  unfold token_outcome, token_granted.
  destruct (credentials_present r); simpl; [| discriminate].
  destruct (network history (token_call r)) as [tr | e]; [| discriminate].
  destruct (ok tr) eqn:Hok; simpl; [| discriminate].
  destruct (JSON_parse (text tr)) as [m | data] eqn:Hdata; [discriminate |].
  intros Hret. exists tr, data.
  destruct data; try discriminate; injection Hret as <-;
    repeat split; auto; discriminate.
Qed.

Lemma order_outcome_is_not_null (amount description : Value)
  (requiresShipping : bool) (history : list Call) (order : JSON) :
  order_outcome header_tsx_b amount description requiresShipping history
  = Returns order ->
  order <> JNull.
Proof.
  unfold order_outcome.
  destruct (token_outcome header_tsx_b history) as [tok | e]; [| discriminate].
  destruct (network _ _) as [orr | e]; [| discriminate].
  destruct (ok orr); simpl; [| discriminate].
  destruct (JSON_parse (text orr)) as [m | o]; [discriminate |].
  destruct o; intros Hret; try discriminate; injection Hret as <-;
    discriminate.
Qed.

(** C8, as amended.  The handler always returns a response and never
    throws.  Either the status is 200, both calls of this invocation
    were made, and the body is exactly the JSON value that the
    processor's successful answer to this invocation's order-creation
    call parsed to (whatever JSON that is; in header.tsx lines 160-293
    not [null]); or the status is 400 or 500 and the body is an object
    whose only field is the string [error]. *)
Theorem response_is_order_or_error (r : Revision) (request : Request)
  (w : World) :
  exists (resp : HttpResponse) (w' : World),
    handler r request w = (Returns resp, w')
    /\ ((status resp = 200
         /\ exists (b : JSON) (token_response : Response) (data : JSON)
                   (order_response : Response),
              accepted request b
              /\ token_granted r (calls w) token_response data
              /\ network (calls w ++ [token_call r])%list
                   (order_call_for r b data)
                 = Resolves order_response
              /\ ok order_response = true
              /\ JSON_parse (text order_response) = Parses (payload resp)
              /\ (r = header_tsx_b -> payload resp <> JNull)
              /\ calls w'
                 = (calls w ++ [token_call r; order_call_for r b data])%list)
        \/ ((status resp = 400 \/ status resp = 500)
            /\ exists m : string, payload resp = JObj [("error", JStr m)])).
Proof.
  destruct (JSON_parse (body_text request)) as [m | b] eqn:Hparse.
  - destruct (handler_malformed r request m w Hparse) as [w' [Hrun _]].
    eexists; exists w'. split; [exact Hrun |]. right. simpl.
    split; [auto | eexists; reflexivity].
  - assert (Hb : b = JNull \/ b <> JNull)
      by (destruct b; auto; right; discriminate).
    destruct Hb as [-> | Hnull].
    + destruct (handler_null_body r request w Hparse) as [w' [Hrun _]].
      eexists; exists w'. split; [exact Hrun |]. right. simpl.
      split; [auto | eexists; reflexivity].
    + destruct (truthy (get_own b "amount")) eqn:Ha;
        [destruct (truthy (get_own b "description")) eqn:Hd |].
      * destruct (handler_summary r request b w Hparse Hnull Ha Hd)
          as [w' [Hrun Hcalls]].
        eexists; exists w'. split; [exact Hrun |].
        destruct (order_outcome r (get_own b "amount")
                    (get_own b "description")
                    (truthy (get_own b "requiresShipping")) (calls w))
          as [order | e] eqn:Ho; simpl.
        -- left. split; [reflexivity |].
           pose proof Ho as Hshape.
           apply order_outcome_returns in Hshape.
           destruct Hshape as [tok [orr [Htok [Hnet [Hok Hord]]]]].
           unfold outbound in Hcalls. rewrite Htok in Hcalls.
           apply token_outcome_granted in Htok.
           destruct Htok as [tr [data [Hgranted ->]]].
           exists b, tr, data, orr. unfold accepted, order_call_for.
           split; [repeat split; assumption |].
           split; [exact Hgranted |].
           split; [exact Hnet |].
           split; [exact Hok |].
           split; [exact Hord |].
           split; [| exact Hcalls].
           intros Hr. subst r.
           exact (order_outcome_is_not_null _ _ _ _ _ Ho).
        -- right. simpl. split; [auto | eexists; reflexivity].
      * eexists; exists w. split.
        -- apply (handler_rejects_falsy r request b w Hparse Hnull).
           rewrite Ha, Hd. reflexivity.
        -- right. simpl. split; [auto | eexists; reflexivity].
      * eexists; exists w. split.
        -- apply (handler_rejects_falsy r request b w Hparse Hnull).
           rewrite Ha. reflexivity.
        -- right. simpl. split; [auto | eexists; reflexivity].
Qed.



(** C10. The guard is on truthiness: the empty string, the number 0,
    [null] and [false] are falsy, ["0"] and a non-numeric non-empty
    string are truthy; a request whose [amount] or [description] is
    falsy gets the 400 validation response, and one whose two fields
    are truthy gets past the guard (its status is never 400). *)
Theorem falsy_fields_are_rejected (r : Revision) (request : Request)
  (b : JSON) (w : World) :
  JSON_parse (body_text request) = Parses b ->
  b <> JNull ->
  (forall v, In v [JStr ""; JNum 0%float; JNull; JBool false] ->
             truthy (Some v) = false)
  /\ truthy (Some (JStr "0")) = true
  /\ truthy (Some (JStr "ten dollars")) = true
  /\ (truthy (get_own b "amount") = false
      \/ truthy (get_own b "description") = false ->
      handler r request w
      = (Returns {| status := 400;
                    payload := JObj [("error",
                      JStr "Missing amount or description in request body")] |},
         w))
  /\ (truthy (get_own b "amount") = true ->
      truthy (get_own b "description") = true ->
      exists (resp : HttpResponse) (w' : World),
        handler r request w = (Returns resp, w') /\ status resp <> 400).
Proof.
  intros Hparse Hnull.
  split; [| split; [reflexivity | split; [reflexivity | split]]].
  - intros v [<- | [<- | [<- | [<- | []]]]]; reflexivity.
  - intros Hfalsy.
    apply (handler_rejects_falsy r request b w Hparse Hnull).
    destruct Hfalsy as [-> | ->]; simpl; [reflexivity | apply orb_true_r].
  - intros Ha Hd.
    destruct (handler_summary r request b w Hparse Hnull Ha Hd)
      as [w' [Hrun _]].
    eexists; exists w'. split; [exact Hrun |].
    destruct (order_outcome r _ _ _ (calls w)); simpl; discriminate.
Qed.

(** C7, as amended.  Within each revision both processor calls use the
    same base URL.  The revision of header.tsx lines 160-293 takes the
    production endpoint when [PAYPAL_MODE] is exactly ["live"] and the
    sandbox endpoint otherwise; the three other revisions always take
    the sandbox endpoint. *)
Theorem base_url_by_revision (r : Revision) (amount description : Value)
  (requiresShipping : bool) (accessToken : Value) :
  url (token_call r) = base_url r ++ "/v1/oauth2/token"
  /\ url (order_call r amount description requiresShipping accessToken)
     = base_url r ++ "/v2/checkout/orders"
  /\ base_url r
     = match r with
       | header_tsx_b => selected_base
       | route_ts | header_tsx_a | part_000 =>
           "https://api-m.sandbox.paypal.com"
       end.
Proof.
  destruct r; repeat split.
  unfold base_url, HeaderTsxB.base, HeaderTsxB.mode_is_live, selected_base.
  destruct (process_env "PAYPAL_MODE") as [mode |]; [| reflexivity].
  destruct (String.eqb mode "live"); reflexivity.
Qed.

End Claims.

(** ** The statements on the fixtures *)

Lemma missing_field_is_bad_request_witness :
  @handler Fixture.happy route_ts (Fixture.request_of Fixture.no_amount)
    Fixture.fresh
  = (Returns {| status := 400;
                payload := JObj [("error",
                  JStr "Missing amount or description in request body")] |},
     Fixture.fresh).
Proof.
  apply (@missing_field_is_bad_request Fixture.happy route_ts
           (Fixture.request_of Fixture.no_amount) Fixture.no_amount
           Fixture.fresh).
  - vm_compute. reflexivity.
  - discriminate.
  - left. reflexivity.
Defined.



Lemma token_failure_short_circuits_witness :
  exists m w',
    @handler Fixture.refused part_000 (Fixture.request_of Fixture.checkout)
      Fixture.fresh
    = (Returns {| status := 500; payload := JObj [("error", JStr m)] |}, w')
    /\ calls w'
       = (calls Fixture.fresh ++ [@token_call Fixture.refused part_000])%list
    /\ @is_order_call Fixture.refused part_000
         (@token_call Fixture.refused part_000) = false.
Proof.
  apply (@token_failure_short_circuits Fixture.refused part_000
           (Fixture.request_of Fixture.checkout) Fixture.checkout
           Fixture.fresh
           {| ok := false; text := Fixture.print Fixture.invalid_client |}).
  all: try discriminate.
  all: vm_compute; reflexivity.
Defined.

Lemma missing_credentials_fail_fast_witness :
  exists w',
    @handler Fixture.unconfigured route_ts
      (Fixture.request_of Fixture.checkout) Fixture.fresh
    = (Returns {| status := 500;
                  payload := JObj [("error",
                    JStr "MISSING_PAYPAL_API_CREDENTIALS")] |},
       w')
    /\ calls w' = calls Fixture.fresh.
Proof.
  apply (@missing_credentials_fail_fast Fixture.unconfigured route_ts
           (Fixture.request_of Fixture.checkout) Fixture.checkout
           Fixture.fresh).
  - vm_compute. reflexivity.
  - discriminate.
  - reflexivity.
  - reflexivity.
  - left. reflexivity.
Defined.


(** Two checkouts in a row against [Fixture.rotating]: four calls, and
    the second order carries the token of the second exchange. *)
Example second_order_carries_second_token :
  map (fun c => (url c, assoc_header "Authorization" (headers c)))
    (calls (snd (@handler Fixture.rotating route_ts
                   (Fixture.request_of Fixture.checkout_shipped)
                   Fixture.after_first_order)))
  = [("https://api-m.sandbox.paypal.com/v1/oauth2/token",
      Some "Basic QVpjbGllbnQ5ZjNrOnMzY3IzdA==");
     ("https://api-m.sandbox.paypal.com/v2/checkout/orders",
      Some "Bearer A21AAFs9");
     ("https://api-m.sandbox.paypal.com/v1/oauth2/token",
      Some "Basic QVpjbGllbnQ5ZjNrOnMzY3IzdA==");
     ("https://api-m.sandbox.paypal.com/v2/checkout/orders",
      Some "Bearer A21AAQx7")].
Proof. vm_compute. reflexivity. Qed.

Lemma falsy_fields_are_rejected_witness :
  @handler Fixture.happy header_tsx_a
    (Fixture.request_of Fixture.empty_amount) Fixture.fresh
  = (Returns {| status := 400;
                payload := JObj [("error",
                  JStr "Missing amount or description in request body")] |},
     Fixture.fresh).
Proof.
  apply (@falsy_fields_are_rejected Fixture.happy header_tsx_a
           (Fixture.request_of Fixture.empty_amount) Fixture.empty_amount
           Fixture.fresh).
  - vm_compute. reflexivity.
  - discriminate.
  - left. reflexivity.
Defined.

(** C3, evaluated.  The token endpoint refuses the client with the body
    [Fixture.invalid_client].  route.ts and header.tsx lines 160-293
    hand that body to the caller in full; header.tsx lines 65-159 and
    part_000 answer with a fixed message. *)
Theorem token_failure_on_fixture :
  fst (@handler Fixture.refused route_ts
         (Fixture.request_of Fixture.checkout) Fixture.fresh)
  = Returns {| status := 500;
               payload := JObj [("error",
                 JStr ("Failed to get access token: "
                       ++ Fixture.print Fixture.invalid_client))] |}
  /\ fst (@handler Fixture.refused header_tsx_b
            (Fixture.request_of Fixture.checkout) Fixture.fresh)
     = Returns {| status := 500;
                  payload := JObj [("error",
                    JStr ("Failed to get access token from PayPal. Raw error: "
                          ++ Fixture.print Fixture.invalid_client
                          ++ ". Check server logs for details."))] |}
  /\ fst (@handler Fixture.refused header_tsx_a
            (Fixture.request_of Fixture.checkout) Fixture.fresh)
     = Returns {| status := 500;
                  payload := JObj [("error",
                    JStr "Failed to get access token from PayPal.")] |}
  /\ fst (@handler Fixture.refused part_000
            (Fixture.request_of Fixture.checkout) Fixture.fresh)
     = Returns {| status := 500;
                  payload := JObj [("error",
                    JStr "Failed to get access token from PayPal. Check server logs for details.")] |}.
Proof. repeat split; vm_compute; reflexivity. Qed.

(** C7 as stated fails on route.ts: with [PAYPAL_MODE] set to ["live"]
    the flag selects the production endpoint, and route.ts still calls
    the sandbox. *)
Lemma route_ts_ignores_live_mode :
  @process_env Fixture.live "PAYPAL_MODE" = Some "live"
  /\ @selected_base Fixture.live = "https://api-m.paypal.com"
  /\ url (@token_call Fixture.live route_ts)
     = "https://api-m.sandbox.paypal.com/v1/oauth2/token"
  /\ url (@order_call Fixture.live route_ts (Some (JStr "10.00"))
            (Some (JStr "4x6 prints")) false (Some (JStr "A21AAFs9")))
     = "https://api-m.sandbox.paypal.com/v2/checkout/orders"
  /\ @base_url Fixture.live route_ts <> @selected_base Fixture.live.
Proof.
  repeat split; try (vm_compute; reflexivity).
  vm_compute. discriminate.
Qed.

(** * Further properties of the gateway *)

Section Paths.
Context `{Runtime}.

Lemma accepted_summary (r : Revision) (request : Request) (b : JSON)
  (w : World) :
  accepted request b ->
  exists w',
    handler r request w
    = (Returns
         (answer r
            (order_outcome r (get_own b "amount") (get_own b "description")
               (truthy (get_own b "requiresShipping")) (calls w))),
       w')
    /\ calls w'
       = (calls w
          ++ outbound r (get_own b "amount") (get_own b "description")
               (truthy (get_own b "requiresShipping")) (calls w))%list.
Proof.
  intros [Hparse [Hnull [Ha Hd]]].
  exact (handler_summary r request b w Hparse Hnull Ha Hd).
Qed.

Lemma token_granted_outcome (r : Revision) (history : list Call)
  (token_response : Response) (data : JSON) :
  token_granted r history token_response data ->
  token_outcome r history = Returns (get_own data "access_token").
Proof.
  intros [Hcred [Hnet [Hok [Hdata Hnull]]]].
  exact (token_success_outcome r history token_response data
           Hcred Hnet Hok Hdata Hnull).
Qed.

(** X1. A request body that is not JSON: the [SyntaxError] of
    [request.json()] is caught, its message goes back with status 500,
    and no call leaves the process. *)
Theorem malformed_body_is_server_error (r : Revision) (request : Request)
  (m : string) (w : World) :
  JSON_parse (body_text request) = SyntaxError m ->
  exists w',
    handler r request w
    = (Returns {| status := 500; payload := JObj [("error", JStr m)] |}, w')
    /\ calls w' = calls w.
Proof.
  intros Hparse.
  destruct (handler_malformed r request m w Hparse) as [w' [Hrun Hc]].
  exists w'. split; [exact Hrun | exact Hc].
Qed.

(** X2. The JSON text [null] as request body does not reach the guard: the
    destructuring throws, so the answer is 500 with the engine's
    [TypeError] message, not the 400 of the validation. *)
Theorem null_body_is_server_error (r : Revision) (request : Request)
  (w : World) :
  JSON_parse (body_text request) = Parses JNull ->
  exists w',
    handler r request w
    = (Returns {| status := 500;
                  payload := JObj [("error",
                    JStr (TypeError_message (DestructureNull "amount")))] |},
       w')
    /\ calls w' = calls w.
Proof.
  intros Hparse.
  destruct (handler_null_body r request w Hparse) as [w' [Hrun Hc]].
  exists w'. split; [exact Hrun | exact Hc].
Qed.

(** X3. The token call rejects (the network is down): 500 with the
    error's message, or with the revision's fallback when what was
    thrown is not an [Error]; the token call is the only call. *)
Theorem token_fetch_rejection (r : Revision) (request : Request) (b : JSON)
  (w : World) (e : Thrown) :
  accepted request b ->
  credentials_present r = true ->
  network (calls w) (token_call r) = Rejects e ->
  exists w',
    handler r request w
    = (Returns {| status := 500;
                  payload := JObj [("error",
                    JStr match e with
                         | ErrorObject m => m
                         | NotAnError =>
                             match r with
                             | header_tsx_b =>
                                 "An unknown error occurred during PayPal order creation."
                             | _ => "An unknown error occurred"
                             end
                         end)] |},
       w')
    /\ calls w' = (calls w ++ [token_call r])%list.
Proof.
  intros Hacc Hcred Hnet.
  destruct (accepted_summary r request b w Hacc) as [w' [Hrun Hc]].
  unfold order_outcome, outbound, token_outcome in *.
  rewrite Hcred, Hnet in Hrun, Hc. simpl in Hrun, Hc.
  exists w'. split; [| exact Hc].
  rewrite Hrun. destruct r, e; reflexivity.
Qed.

(** X4. The token endpoint answers with a success whose body is not JSON:
    500 with the parser's message, and the order call is not made. *)
Theorem token_body_not_json (r : Revision) (request : Request) (b : JSON)
  (w : World) (token_response : Response) (m : string) :
  accepted request b ->
  credentials_present r = true ->
  network (calls w) (token_call r) = Resolves token_response ->
  ok token_response = true ->
  JSON_parse (text token_response) = SyntaxError m ->
  exists w',
    handler r request w
    = (Returns {| status := 500; payload := JObj [("error", JStr m)] |}, w')
    /\ calls w' = (calls w ++ [token_call r])%list.
Proof.
  intros Hacc Hcred Hnet Hok Hparse.
  destruct (accepted_summary r request b w Hacc) as [w' [Hrun Hc]].
  unfold order_outcome, outbound, token_outcome in *.
  rewrite Hcred, Hnet, Hok, Hparse in Hrun, Hc. simpl in Hrun, Hc.
  exists w'. split; [| exact Hc].
  rewrite Hrun. destruct r; reflexivity.
Qed.

(** X5. The token endpoint answers with a success whose body is the JSON
    text [null]: reading [data.access_token] throws, the answer is 500
    with the engine's message, and the order call is not made. *)
Theorem token_body_null (r : Revision) (request : Request) (b : JSON)
  (w : World) (token_response : Response) :
  accepted request b ->
  credentials_present r = true ->
  network (calls w) (token_call r) = Resolves token_response ->
  ok token_response = true ->
  JSON_parse (text token_response) = Parses JNull ->
  exists w',
    handler r request w
    = (Returns {| status := 500;
                  payload := JObj [("error",
                    JStr (TypeError_message (ReadOfNull "access_token")))] |},
       w')
    /\ calls w' = (calls w ++ [token_call r])%list.
Proof.
  intros Hacc Hcred Hnet Hok Hparse.
  destruct (accepted_summary r request b w Hacc) as [w' [Hrun Hc]].
  unfold order_outcome, outbound, token_outcome in *.
  rewrite Hcred, Hnet, Hok, Hparse in Hrun, Hc. simpl in Hrun, Hc.
  exists w'. split; [| exact Hc].
  rewrite Hrun. destruct r; reflexivity.
Qed.

(** X6. A token answer without [access_token] is not checked: the order
    call is made all the same, with the header
    [Authorization: Bearer undefined]. *)
Theorem missing_access_token_still_orders (r : Revision) (request : Request)
  (b : JSON) (w : World) (token_response : Response) (data : JSON) :
  accepted request b ->
  token_granted r (calls w) token_response data ->
  get_own data "access_token" = undefined ->
  calls (snd (handler r request w))
  = (calls w ++ [token_call r; order_call_for r b data])%list
  /\ assoc_header "Authorization" (headers (order_call_for r b data))
     = Some "Bearer undefined".
Proof.
  intros Hacc Htok Hmissing.
  destruct (accepted_summary r request b w Hacc) as [w' [Hrun Hc]].
  rewrite Hrun. simpl. rewrite Hc. unfold outbound, order_call_for.
  rewrite (token_granted_outcome r (calls w) token_response data Htok).
  split; [reflexivity |].
  rewrite Hmissing. destruct r; reflexivity.
Qed.






End Paths.

Section Console.
Context `{Runtime}.


Lemma credentials_present_inv (r : Revision) :
  credentials_present r = true ->
  env_truthy (client_id r) = true /\ env_truthy (client_secret r) = true.
Proof. unfold credentials_present. apply andb_prop. Qed.

Ltac unfold_gateway :=
  unfold order_call_for in *;
  unfold createPayPalOrder, getPayPalAccessToken, token_call, order_call,
    client_id, client_secret,
    RouteTs.createPayPalOrder, HeaderTsxA.createPayPalOrder,
    Part000.createPayPalOrder, HeaderTsxB.createPayPalOrder,
    RouteTs.getPayPalAccessToken, HeaderTsxA.getPayPalAccessToken,
    Part000.getPayPalAccessToken, HeaderTsxB.getPayPalAccessToken in *;
  unfold response_text, response_json, new_Error in *;
  unfold parse, fetch, console_error, console_log in *;
  unfold try_catch, bind in *;
  unfold ret, throw in *.


Ltac break_innermost :=
  match goal with
  | |- context [match ?x with _ => _ end] =>
      lazymatch x with
      | context [match _ with _ => _ end] => fail
      | _ => destruct x eqn:?
      end
  end.

(** In part_000 and in header.tsx lines 160-293 the first thing an
    accepted request writes is the line that announces the
    authentication. *)
Lemma attempt_is_logged_first (r : Revision) (request : Request) (b : JSON)
  (w : World) :
  r = part_000 \/ r = header_tsx_b ->
  accepted request b ->
  credentials_present r = true ->
  exists rest,
    console (snd (handler r request w))
    = (console w
       ++ console_log_entry
            [LStr match r with
                  | header_tsx_b =>
                      "Attempting PayPal auth with Client ID ending in ..."
                        ++ slice_last4 (env_text (client_id r))
                        ++ " for "
                        ++ (if env_truthy (process_env "PAYPAL_MODE")
                            then env_text (process_env "PAYPAL_MODE")
                            else "sandbox")
                        ++ " environment."
                  | _ =>
                      "Attempting PayPal auth with Client ID ending in ..."
                        ++ slice_last4 (env_text (client_id r))
                  end]
          :: rest)%list.
Proof.
  intros Hr [Hparse [Hnull [Ha Hd]]] Hcred.
  rewrite (handler_accepts_truthy r request b w Hparse Hnull Ha Hd).
  apply credentials_present_inv in Hcred. destruct Hcred as [Hid Hsecret].
  destruct Hr as [-> | ->]; unfold_gateway; unfold member, ret, throw;
    rewrite Hid, Hsecret; cbn [negb orb].
  all: repeat (cbn [calls console fst snd]; break_innermost).
  all: cbn [calls console fst snd]; unfold client_id;
    rewrite <- ?app_assoc; cbn [app]; eexists; reflexivity.
Qed.

Lemma substring_length_le (s : string) :
  forall n m, String.length (substring n m s) <= m.
Proof.
  induction s as [| c s IH]; intros [| n] [| m]; simpl; try lia.
  - specialize (IH 0 m). lia.
  - apply (IH n 0).
  - apply (IH n (S m)).
Qed.

Lemma substring_whole (s : string) :
  forall m, String.length s <= m -> substring 0 m s = s.
Proof.
  induction s as [| c s IH]; intros [| m] Hlen; simpl in *;
    try reflexivity; try lia.
  f_equal. apply IH. lia.
Qed.

Lemma substring_is_suffix (s : string) :
  forall n m, String.length s <= n + m ->
              exists prefix, s = prefix ++ substring n m s.
Proof.
  induction s as [| c s IH]; intros n m Hlen.
  - exists "". destruct n, m; reflexivity.
  - destruct n as [| n].
    + exists "". rewrite substring_whole by exact Hlen. reflexivity.
    + destruct (IH n m ltac:(simpl in Hlen; lia)) as [p Hp].
      exists (String c p). simpl. f_equal. exact Hp.
Qed.

(** X13. The client identifier is masked in the log: the announcing line of
    part_000 and of header.tsx lines 160-293 shows a suffix of it of at
    most four characters. *)
Theorem client_id_is_masked_in_log (r : Revision) (request : Request)
  (b : JSON) (w : World) (id : string) :
  r = part_000 \/ r = header_tsx_b ->
  accepted request b ->
  credentials_present r = true ->
  client_id r = Some id ->
  exists suffix prefix rest,
    id = prefix ++ suffix
    /\ String.length suffix <= 4
    /\ console (snd (handler r request w))
       = (console w
          ++ console_log_entry
               [LStr match r with
                     | header_tsx_b =>
                         "Attempting PayPal auth with Client ID ending in ..."
                           ++ suffix ++ " for "
                           ++ (if env_truthy (process_env "PAYPAL_MODE")
                               then env_text (process_env "PAYPAL_MODE")
                               else "sandbox")
                           ++ " environment."
                     | _ =>
                         "Attempting PayPal auth with Client ID ending in ..."
                           ++ suffix
                     end]
             :: rest)%list.
Proof.
  intros Hr Hacc Hcred Hid.
  destruct (attempt_is_logged_first r request b w Hr Hacc Hcred)
    as [rest Hlog].
  rewrite Hid in Hlog. simpl env_text in Hlog.
  destruct (substring_is_suffix id (String.length id - 4) 4 ltac:(lia))
    as [prefix Hprefix].
  exists (slice_last4 id), prefix, rest.
  split; [exact Hprefix |].
  split; [apply substring_length_le | exact Hlog].
Qed.

(** X14. In header.tsx lines 160-293 the log can name a mode the calls do
    not use: with [PAYPAL_MODE] set to anything but ["live"] (say
    ["production"]) the announcing line names that mode, and the token
    call goes to the sandbox. *)
Theorem logged_mode_is_not_the_endpoint (request : Request) (b : JSON)
  (w : World) (mode : string) :
  accepted request b ->
  credentials_present header_tsx_b = true ->
  process_env "PAYPAL_MODE" = Some mode ->
  String.eqb mode "" = false ->
  String.eqb mode "live" = false ->
  url (token_call header_tsx_b)
  = "https://api-m.sandbox.paypal.com/v1/oauth2/token"
  /\ exists rest,
       console (snd (handler header_tsx_b request w))
       = (console w
          ++ console_log_entry
               [LStr ("Attempting PayPal auth with Client ID ending in ..."
                      ++ slice_last4 (env_text (client_id header_tsx_b))
                      ++ " for " ++ mode ++ " environment.")]
             :: rest)%list.
Proof.
  intros Hacc Hcred Hmode Hnonempty Hnotlive.
  split.
  - unfold token_call, HeaderTsxB.token_request, HeaderTsxB.base,
      HeaderTsxB.mode_is_live.
    rewrite Hmode, Hnotlive. reflexivity.
  - destruct (attempt_is_logged_first header_tsx_b request b w
                (or_intror eq_refl) Hacc Hcred) as [rest Hlog].
    exists rest. rewrite Hlog, Hmode. simpl env_truthy. simpl env_text.
    rewrite Hnonempty. reflexivity.
Qed.

(** X15. A refusal of the token endpoint is kept on the server: in every
    revision the console then holds an entry with the upstream body
    (in route.ts, inside the logged error). *)
Theorem token_failure_is_logged (r : Revision) (request : Request) (b : JSON)
  (w : World) (token_response : Response) :
  accepted request b ->
  credentials_present r = true ->
  network (calls w) (token_call r) = Resolves token_response ->
  ok token_response = false ->
  In (console_error_entry
        match r with
        | route_ts =>
            [LStr "Failed to create PayPal order:";
             LErr (ErrorObject ("Failed to get access token: "
                                ++ text token_response))]
        | header_tsx_a =>
            [LStr "Failed to get PayPal access token:";
             LStr (text token_response)]
        | part_000 =>
            [LStr "PayPal API Error Response:"; LStr (text token_response)]
        | header_tsx_b =>
            [LStr "PayPal Access Token API Error Response:";
             LStr (text token_response)]
        end)
     (console (snd (handler r request w))).
Proof.
  intros [Hparse [Hnull [Ha Hd]]] Hcred Hnet Hok.
  rewrite (handler_accepts_truthy r request b w Hparse Hnull Ha Hd).
  apply credentials_present_inv in Hcred. destruct Hcred as [Hid Hsecret].
  destruct r; unfold_gateway; unfold member, ret, throw;
    rewrite Hid, Hsecret;
    cbn [negb orb calls console]; rewrite Hnet; cbn [calls console];
    rewrite Hok; cbn [negb].
  all: repeat (cbn [calls console fst snd]; break_innermost).
  all: cbn [calls console fst snd]; rewrite ?in_app_iff; simpl; tauto.
Qed.

End Console.

(** * The [Header] component *)

Lemma upper_ascii_is_not_lower (c : ascii) :
  Header.is_lower (Header.upper_ascii c) = false.
Proof. destruct c as [[] [] [] [] [] [] [] []]; reflexivity. Qed.

Lemma upper_ascii_of_lower (c : ascii) :
  Header.is_lower c = true ->
  nat_of_ascii (Header.upper_ascii c) + 32 = nat_of_ascii c.
Proof.
  destruct c as [[] [] [] [] [] [] [] []]; intros Hc;
    first [reflexivity | discriminate Hc].
Qed.

(** X17. The avatar's fallback for an email that starts with an ASCII
    character is that one character, in upper case when it is a letter
    a-z and as it is otherwise; it is never a lower-case letter. *)
Theorem avatar_fallback_initial (user : Header.User) (c : ascii)
  (rest : string) :
  Header.email user = Some (String c rest) ->
  nat_of_ascii c < 128 ->
  exists i : ascii,
    Header.avatarFallback user = Some (String i EmptyString)
    /\ Header.is_lower i = false
    /\ (Header.is_lower c = true -> nat_of_ascii i + 32 = nat_of_ascii c)
    /\ (Header.is_lower c = false -> i = c).
Proof.
  intros Hemail _. exists (Header.upper_ascii c).
  unfold Header.avatarFallback. rewrite Hemail. simpl.
  split; [reflexivity |].
  split; [apply upper_ascii_is_not_lower |].
  split; [apply upper_ascii_of_lower |].
  intros Hc. unfold Header.upper_ascii. rewrite Hc. reflexivity.
Qed.

(** X18. Clicking anything the header offers navigates at most once.
    The title leads to [/] for everybody.  Besides it, a visitor can
    only reach [/login] and [/signup]; a signed-in user [/profile], and
    [/] after a sign-out that succeeded; opening the menu goes nowhere.
    A sign-out that fails navigates nowhere and leaves one error on the
    console. *)
Theorem header_click (user : option Header.User) (ctl : Header.Control)
  (signOut : Outcome unit) (ui : Header.Browser) :
  In ctl (Header.controls (Header.Header user)) ->
  (exists e,
     signOut = Throws e
     /\ Header.onClick ctl = Header.HandleSignOut
     /\ user <> None
     /\ Header.pushed (Header.click (Header.onClick ctl) signOut ui)
        = Header.pushed ui
     /\ Header.console (Header.click (Header.onClick ctl) signOut ui)
        = (Header.console ui
           ++ [console_error_entry [LStr "Error signing out: "; LErr e]])%list)
  \/ (Header.onClick ctl = Header.OpenMenu
      /\ user <> None
      /\ Header.click (Header.onClick ctl) signOut ui = ui)
  \/ (exists path,
        Header.pushed (Header.click (Header.onClick ctl) signOut ui)
        = (Header.pushed ui ++ [path])%list
        /\ Header.console (Header.click (Header.onClick ctl) signOut ui)
           = Header.console ui
        /\ ((path = "/"
             /\ (Header.onClick ctl = Header.FollowLink "/"
                 \/ (Header.onClick ctl = Header.HandleSignOut
                     /\ user <> None
                     /\ exists t, signOut = Returns t)))
            \/ (user = None /\ (path = "/login" \/ path = "/signup"))
            \/ (user <> None /\ path = "/profile"))).
Proof.
  intros Hin.
  destruct user as [u |]; simpl in Hin.
  - destruct Hin as [<- | [<- | [<- | [<- | []]]]]; simpl.
    + right. right. exists "/". repeat split. left. auto.
    + right. left. repeat split. discriminate.
    + right. right. exists "/profile". repeat split.
      right. right. split; [discriminate | reflexivity].
    + destruct signOut as [t | e]; simpl.
      * right. right. exists "/". repeat split.
        left. split; [reflexivity |]. right.
        split; [reflexivity |]. split; [discriminate | eauto].
      * left. exists e. repeat split. discriminate.
  - destruct Hin as [<- | [<- | [<- | []]]]; simpl; right; right.
    + exists "/". repeat split. left. auto.
    + exists "/login". repeat split. right. left. auto.
    + exists "/signup". repeat split. right. left. auto.
Qed.

(** ** The further properties on the fixtures *)

Ltac settle := repeat split; try discriminate; vm_compute; reflexivity.

Lemma malformed_body_is_server_error_witness :
  exists w',
    @handler Scenario.healthy route_ts Scenario.html_request Fixture.fresh
    = (Returns {| status := 500;
                  payload := JObj [("error",
                    JStr "Unexpected token < in JSON at position 0")] |},
       w')
    /\ calls w' = calls Fixture.fresh.
Proof.
  apply (@malformed_body_is_server_error Scenario.healthy route_ts
           Scenario.html_request).
  settle.
Defined.

Lemma null_body_is_server_error_witness :
  exists w',
    @handler Scenario.healthy part_000 Scenario.null_request Fixture.fresh
    = (Returns {| status := 500;
                  payload := JObj [("error",
                    JStr (Fixture.TypeError_message
                            (DestructureNull "amount")))] |},
       w')
    /\ calls w' = calls Fixture.fresh.
Proof.
  apply (@null_body_is_server_error Scenario.healthy part_000
           Scenario.null_request).
  settle.
Defined.

Lemma token_fetch_rejection_witness :
  exists w',
    @handler Scenario.token_down route_ts Scenario.checkout_request
      Fixture.fresh
    = (Returns {| status := 500;
                  payload := JObj [("error", JStr "fetch failed")] |},
       w')
    /\ calls w'
       = (calls Fixture.fresh
          ++ [@token_call Scenario.token_down route_ts])%list.
Proof.
  apply (@token_fetch_rejection Scenario.token_down route_ts
           Scenario.checkout_request Fixture.checkout Fixture.fresh
           (ErrorObject "fetch failed")).
  all: settle.
Defined.

Lemma token_body_not_json_witness :
  exists w',
    @handler Scenario.token_page header_tsx_a Scenario.checkout_request
      Fixture.fresh
    = (Returns {| status := 500;
                  payload := JObj [("error",
                    JStr "Unexpected token < in JSON at position 0")] |},
       w')
    /\ calls w'
       = (calls Fixture.fresh
          ++ [@token_call Scenario.token_page header_tsx_a])%list.
Proof.
  apply (@token_body_not_json Scenario.token_page header_tsx_a
           Scenario.checkout_request Fixture.checkout Fixture.fresh
           {| ok := true; text := Scenario.gateway_page |}).
  all: settle.
Defined.

Lemma token_body_null_witness :
  exists w',
    @handler Scenario.token_null route_ts Scenario.checkout_request
      Fixture.fresh
    = (Returns {| status := 500;
                  payload := JObj [("error",
                    JStr (Fixture.TypeError_message
                            (ReadOfNull "access_token")))] |},
       w')
    /\ calls w'
       = (calls Fixture.fresh
          ++ [@token_call Scenario.token_null route_ts])%list.
Proof.
  apply (@token_body_null Scenario.token_null route_ts
           Scenario.checkout_request Fixture.checkout Fixture.fresh
           {| ok := true; text := Fixture.print JNull |}).
  all: settle.
Defined.

Lemma missing_access_token_still_orders_witness :
  calls (snd (@handler Scenario.token_without_access route_ts
                Scenario.checkout_request Fixture.fresh))
  = (calls Fixture.fresh
     ++ [@token_call Scenario.token_without_access route_ts;
         @order_call_for Scenario.token_without_access route_ts
           Fixture.checkout Scenario.no_token])%list
  /\ assoc_header "Authorization"
       (headers (@order_call_for Scenario.token_without_access route_ts
                   Fixture.checkout Scenario.no_token))
     = Some "Bearer undefined".
Proof.
  apply (@missing_access_token_still_orders Scenario.token_without_access
           route_ts Scenario.checkout_request Fixture.checkout Fixture.fresh
           {| ok := true; text := Fixture.print Scenario.no_token |}
           Scenario.no_token).
  all: settle.
Defined.







Lemma client_id_is_masked_in_log_witness :
  exists suffix prefix rest,
    "AZclient9f3k" = prefix ++ suffix
    /\ String.length suffix <= 4
    /\ console (snd (@handler Scenario.healthy part_000
                       Scenario.checkout_request Fixture.fresh))
       = (console Fixture.fresh
          ++ console_log_entry
               [LStr ("Attempting PayPal auth with Client ID ending in ..."
                      ++ suffix)]
             :: rest)%list.
Proof.
  apply (@client_id_is_masked_in_log Scenario.healthy part_000
           Scenario.checkout_request Fixture.checkout Fixture.fresh
           "AZclient9f3k").
  - left. reflexivity.
  - settle.
  - settle.
  - settle.
Defined.

Lemma logged_mode_is_not_the_endpoint_witness :
  url (@token_call Scenario.production_mode header_tsx_b)
  = "https://api-m.sandbox.paypal.com/v1/oauth2/token"
  /\ exists rest,
       console (snd (@handler Scenario.production_mode header_tsx_b
                       Scenario.checkout_request Fixture.fresh))
       = (console Fixture.fresh
          ++ console_log_entry
               [LStr ("Attempting PayPal auth with Client ID ending in ..."
                      ++ slice_last4
                           (env_text (@client_id Scenario.production_mode
                                        header_tsx_b))
                      ++ " for " ++ "production" ++ " environment.")]
             :: rest)%list.
Proof.
  apply (@logged_mode_is_not_the_endpoint Scenario.production_mode
           Scenario.checkout_request Fixture.checkout Fixture.fresh
           "production").
  all: settle.
Defined.

Lemma token_failure_is_logged_witness :
  In (console_error_entry
        [LStr "PayPal API Error Response:";
         LStr (Fixture.print Fixture.invalid_client)])
     (console (snd (@handler Scenario.client_refused part_000
                      Scenario.checkout_request Fixture.fresh))).
Proof.
  apply (@token_failure_is_logged Scenario.client_refused part_000
           Scenario.checkout_request Fixture.checkout Fixture.fresh
           {| ok := false; text := Fixture.print Fixture.invalid_client |}).
  all: settle.
Defined.

Lemma token_failure_is_surfaced_witness :
  fst (@handler Scenario.client_refused header_tsx_a
         Scenario.checkout_request Fixture.fresh)
  = Returns {| status := 500;
               payload := JObj [("error",
                 JStr "Failed to get access token from PayPal.")] |}.
Proof.
  apply (@token_failure_is_surfaced Scenario.client_refused header_tsx_a
           Scenario.checkout_request Fixture.checkout Fixture.fresh
           {| ok := false; text := Fixture.print Fixture.invalid_client |}).
  all: settle.
Defined.

Lemma avatar_fallback_initial_witness :
  exists i : ascii,
    Header.avatarFallback Scenario.visitor = Some (String i EmptyString)
    /\ Header.is_lower i = false
    /\ (Header.is_lower "a"%char = true ->
        nat_of_ascii i + 32 = nat_of_ascii "a"%char)
    /\ (Header.is_lower "a"%char = false -> i = "a"%char).
Proof.
  apply (@avatar_fallback_initial Scenario.visitor "a"%char "@b.com").
  - reflexivity.
  - vm_compute. lia.
Defined.

Lemma header_click_witness :
  exists path,
    Header.pushed
      (Header.click (Header.FollowLink "/") (@Throws unit NotAnError)
         Scenario.idle)
    = (Header.pushed Scenario.idle ++ [path])%list
    /\ path = "/".
Proof.
  destruct (@header_click None
              {| Header.label := "Locket Photo Print";
                 Header.onClick := Header.FollowLink "/" |}
              (Throws NotAnError) Scenario.idle
              (or_introl eq_refl))
    as [[e [_ [Hclick _]]] | [[Hclick _] | [path [Hpushed _]]]].
  - discriminate Hclick.
  - discriminate Hclick.
  - exists path. split; [exact Hpushed |].
    simpl in Hpushed. injection Hpushed as <-. reflexivity.
Defined.

(** C1 as stated fails on the body [null]: it is a parsed JSON body
    without [amount], and the answer is 500, not the 400 of the
    validation. *)
Lemma null_body_is_not_bad_request :
  @JSON_parse Fixture.happy (body_text (Fixture.request_of JNull))
  = Parses JNull
  /\ get_own JNull "amount" = undefined
  /\ get_own JNull "description" = undefined
  /\ @handler Fixture.happy route_ts (Fixture.request_of JNull) Fixture.fresh
     = (Returns {| status := 500;
                   payload := JObj [("error",
                     JStr "Cannot destructure property 'amount' of '(intermediate value)' as it is null.")] |},
        {| calls := [];
           console :=
             [console_error_entry
                [LStr "Failed to create PayPal order:";
                 LErr (ErrorObject "Cannot destructure property 'amount' of '(intermediate value)' as it is null.")]] |}).
Proof. repeat split; vm_compute; reflexivity. Qed.

(** C8 as stated fails when the processor answers the order-creation
    call with a success whose body is the JSON text [null]: route.ts
    answers 200 with the body [null], which is not a JSON object. *)
Lemma order_data_need_not_be_an_object :
  @handler Scenario.order_null route_ts Scenario.checkout_request Fixture.fresh
  = (Returns {| status := 200; payload := JNull |},
     {| calls :=
          [@token_call Scenario.order_null route_ts;
           @order_call_for Scenario.order_null route_ts Fixture.checkout
             Fixture.token_grant];
        console := [] |})
  /\ ~ (exists fields, JNull = JObj fields).
Proof.
  split; [vm_compute; reflexivity |].
  intros [fields Hfields]. discriminate Hfields.
Qed.
